(** * wireguard-config-sidecar: the topology builder and the node serializer

    A shallow embedding of [main.go]: [getPrivateKey], [buildPostUp],
    [buildNodes] and [buildNodeFile], followed by the properties the
    specification states about them.

    Go strings are byte sequences and are modelled by [string]; slices by
    [list]; a pointer to a protobuf message or to a scalar by [option]
    ([None] is the nil pointer); the process environment by a finite map from
    variable names to values. *)

From Stdlib Require Import ZArith NArith Strings.String Strings.Ascii.
From Stdlib Require Import Numbers.DecimalString Lia.
From stdpp Require Import base option list strings gmap.

Open Scope Z_scope.

(** ** Results of a Go call

    A function of the program either returns normally, returns a non-nil
    [error] (carried here by its message), or panics at run time on a nil
    pointer dereference.  [main] has no [recover], so a panic ends the
    process. *)

Inductive outcome (A : Type) : Type :=
| Ok (a : A)
| Failed (msg : string)
| Panic.
Arguments Ok {A} a.
Arguments Failed {A} msg.
Arguments Panic {A}.

#[global] Instance outcome_ret : MRet outcome := fun A a => Ok a.
#[global] Instance outcome_bind : MBind outcome := fun A B f m =>
  match m with
  | Ok a => f a
  | Failed msg => Failed msg
  | Panic => Panic
  end.

(** A library call returning [(T, error)]. *)
Definition call {A : Type} (r : string + A) : outcome A :=
  match r with
  | inl msg => Failed msg
  | inr a => Ok a
  end.

(** Reading a field through a pointer that may be nil. *)
Definition deref {A : Type} (p : option A) : outcome A :=
  match p with
  | Some a => Ok a
  | None => Panic
  end.

Definition returns {A : Type} (m : outcome A) : Prop := exists a, m = Ok a.
Definition fails {A : Type} (m : outcome A) : Prop := exists msg, m = Failed msg.
Definition panics {A : Type} (m : outcome A) : Prop := m = Panic.

(** ** The protobuf messages of [wg_pb]

    The generated types live in another module; their fields are read off the
    way [main.go] uses them. *)

(** The [Store] oneof of [PrivateKey].  [main.go] knows the single wrapper
    [PrivateKey_EnvVar]; every other dynamic value of the interface (the
    unset oneof included) takes the fall-through of the type switch. *)
Inductive isPrivateKey_Store : Type :=
| PrivateKey_EnvVar (EnvVar : string)
| PrivateKey_otherStore.

Record PrivateKey : Type := { PrivateKey_Store : isPrivateKey_Store }.

Definition GetEnvVar (pk : PrivateKey) : string :=
  match PrivateKey_Store pk with
  | PrivateKey_EnvVar v => v
  | PrivateKey_otherStore => ""
  end.

Record Routes : Type := { Routes_Accept : list string }.

Record User : Type := {
  User_PublicKey : string;
  User_Revoked : bool
}.

Record Server : Type := {
  Server_PrivateKey : option PrivateKey;
  Server_ListenPort : N;
  Server_Cidr : string;
  Server_Routes : option Routes;
  Server_Endpoint : string;
  Server_Dns : list string;
  Server_Users : list User
}.

Record Interface : Type := {
  Interface_Address : string;
  Interface_ListenPort : option N;
  Interface_PrivateKey : option string;
  Interface_Dns : option string;
  Interface_PreUp : option string;
  Interface_PostUp : option string;
  Interface_PreDown : option string;
  Interface_PostDown : option string
}.

Record Peer : Type := {
  Peer_PublicKey : string;
  Peer_Endpoint : string;
  Peer_AllowedIps : string
}.

Record Node : Type := {
  Node_Interface : option Interface;
  Node_Peers : list Peer
}.

(** The assignment [itf.Dns = &dns]. *)
Definition set_Dns (itf : Interface) (dns : string) : Interface :=
  {| Interface_Address := Interface_Address itf;
     Interface_ListenPort := Interface_ListenPort itf;
     Interface_PrivateKey := Interface_PrivateKey itf;
     Interface_Dns := Some dns;
     Interface_PreUp := Interface_PreUp itf;
     Interface_PostUp := Interface_PostUp itf;
     Interface_PreDown := Interface_PreDown itf;
     Interface_PostDown := Interface_PostDown itf |}.

(** ** Formatting *)

(** The verb [%d] of [fmt.Sprintf] on an unsigned integer. *)
Definition fmt_d (n : N) : string := NilEmpty.string_of_uint (N.to_uint n).

(** A Go string literal's escaped double quote, and a text between two. *)
Definition dquote : string := String (ascii_of_nat 34) EmptyString.
Definition quoted (s : string) : string := dquote +:+ s +:+ dquote.

(** [strings.Join]. *)
Definition Join (elems : list string) (sep : string) : string :=
  String.concat sep elems.

(** ** The line builders of [node] and [script]

    Both builders collect the lines handed to [AddLine] in call order. *)

Record Builder : Type := { Builder_lines : list string }.

Definition NewBuilder : Builder := {| Builder_lines := [] |}.

Definition AddLine (b : Builder) (line : string) : Builder :=
  {| Builder_lines := Builder_lines b ++ [line] |}.

(** ** The process environment *)

Definition Getenv (env : gmap string string) (key : string) : string :=
  default "" (env !! key).

(** ** Library capabilities the program calls into *)

(** [wgtypes]: parsing a private key and printing its public key. *)
Class KeyLib : Type := {
  Key : Type;
  ParseKey : string -> string + Key;
  PublicKey_String : Key -> string
}.

(** [cidr]: a parsed range, its first address, its n-th address and the
    printed prefix length. *)
Class CidrLib : Type := {
  CIDR : Type;
  IP : Type;
  cidr_Parse : string -> string + CIDR;
  cidr_First : CIDR -> IP;
  cidr_GetNth : CIDR -> Z -> IP;
  cidr_Mask : CIDR -> string;
  IP_String : IP -> string
}.

(** The text projections of the two builders.

    Modelled from the spec: [script.Builder.ToOneLine] is not part of this
    repository's sources; the specification describes the single-line form as
    the commands concatenated with a command separator, so it is the join of
    the collected lines over a separator that is left open.
    [node.Builder.String] is kept abstract as a function of the collected
    lines. *)
Class TextLib : Type := {
  command_separator : string;
  node_String : list string -> string
}.

Definition ToOneLine `{TextLib} (b : Builder) : string :=
  Join (Builder_lines b) command_separator.

Definition Builder_String `{TextLib} (b : Builder) : string :=
  node_String (Builder_lines b).

(** ** [getPrivateKey] *)

Definition getPrivateKey (env : gmap string string) (pk : option PrivateKey)
  : outcome string :=
  pk ← deref pk;
  match PrivateKey_Store pk with
  | PrivateKey_EnvVar _ =>
      let val := Getenv env (GetEnvVar pk) in
      if String.eqb val "" then
        Failed ("env var " +:+ GetEnvVar pk +:+ " is empty")
      else Ok val
  | PrivateKey_otherStore => Failed "unknown private key store"
  end.

(** ** [buildPostUp] *)

Definition accept_rule (route : string) : string :=
  "iptables -A wgroute -d " +:+ route +:+ " -i wg0 -o eth0 -j ACCEPT".

Definition buildPostUp_script (pu : Routes) : Builder :=
  let s := NewBuilder in
  let s := AddLine s ("iptables -N wgroute || echo " +:+ quoted "wgroute chain already exists") in
  let s := AddLine s "iptables -C FORWARD -i wg0 -j wgroute || iptables -A FORWARD -i wg0 -j wgroute" in
  let s := AddLine s "iptables -t nat -A POSTROUTING -o eth0 -j MASQUERADE" in
  let s := AddLine s "iptables -F wgroute" in
  let s := fold_left (fun s route => AddLine s (accept_rule route))
             (Routes_Accept pu) s in
  let s := AddLine s "iptables -A wgroute -j REJECT --reject-with icmp-host-prohibited" in
  let s := AddLine s ("echo " +:+ quoted "Done") in
  s.

Definition buildPostUp `{TextLib} (pu : option Routes) : string :=
  match pu with
  | None => ""
  | Some pu => ToOneLine (buildPostUp_script pu)
  end.

(** ** [buildNodeFile] *)

Definition peer_lines (c : Builder) (u : Peer) : Builder :=
  let c := AddLine c "[Peer]" in
  let c := AddLine c ("PublicKey = " +:+ Peer_PublicKey u) in
  let c := AddLine c ("Endpoint = " +:+ Peer_Endpoint u) in
  let c := AddLine c ("AllowedIPs = " +:+ Peer_AllowedIps u) in
  let c := AddLine c "" in
  c.

(** The builder as [buildNodeFile] leaves it before [c.String()]; reading
    [n.Interface.Address] through a nil [Interface] panics. *)
Definition buildNodeFile_builder (n : Node) : outcome Builder :=
  let c := NewBuilder in
  let c := AddLine c "[Interface]" in
  itf ← deref (Node_Interface n);
  let c := AddLine c ("Address = " +:+ Interface_Address itf) in
  let c := match Interface_ListenPort itf with
           | Some p => AddLine c ("ListenPort = " +:+ fmt_d p)
           | None => c
           end in
  let c := match Interface_PrivateKey itf with
           | Some v => AddLine c ("PrivateKey = " +:+ v)
           | None => c
           end in
  let c := match Interface_Dns itf with
           | Some v => AddLine c ("DNS = " +:+ v)
           | None => c
           end in
  let c := match Interface_PreUp itf with
           | Some v => AddLine c ("PreUp = " +:+ v)
           | None => c
           end in
  let c := match Interface_PostUp itf with
           | Some v => AddLine c ("PostUp = " +:+ v)
           | None => c
           end in
  let c := match Interface_PostDown itf with
           | Some v => AddLine c ("PostDown = " +:+ v)
           | None => c
           end in
  let c := match Interface_PreDown itf with
           | Some v => AddLine c ("PreDown = " +:+ v)
           | None => c
           end in
  let c := AddLine c "" in
  let c := fold_left peer_lines (Node_Peers n) c in
  Ok c.

(** The lines of the rendered file, in order. *)
Definition buildNodeFile_lines (n : Node) : outcome (list string) :=
  c ← buildNodeFile_builder n; Ok (Builder_lines c).

Definition buildNodeFile `{TextLib} (n : Node) : outcome string :=
  c ← buildNodeFile_builder n; Ok (Builder_String c).

(** ** [buildNodes] *)

Section BuildNodes.
Context `{KeyLib, CidrLib, TextLib}.

(** The address literal both the server's peer entry and the member's own
    interface receive: [cidr.GetNth(idx+1).String() + "/32"]. *)
Definition user_ip (cidr : CIDR) (idx : Z) : string :=
  IP_String (cidr_GetNth cidr (idx + 1)) +:+ "/32".

(** One iteration of [for idx, user := range server.Users], on the pair
    ([serverNode.Peers], [userNodes]). *)
Definition user_step (server : Server) (pub : string) (cidr : CIDR)
    (idx : Z) (user : User) (st : list Peer * list Node)
  : outcome (list Peer * list Node) :=
  let '(peers, userNodes) := st in
  if negb (User_Revoked user) then
    let ip := user_ip cidr idx in
    let peers := peers ++ [ {| Peer_PublicKey := User_PublicKey user;
                               Peer_Endpoint := "";
                               Peer_AllowedIps := ip |} ] in
    let dns := Join (Server_Dns server) "," in
    routes ← deref (Server_Routes server);
    let itf := {| Interface_Address := user_ip cidr idx;
                  Interface_ListenPort := None;
                  Interface_PrivateKey := None;
                  Interface_Dns := None;
                  Interface_PreUp := None;
                  Interface_PostUp := None;
                  Interface_PreDown := None;
                  Interface_PostDown := None |} in
    let server_peer :=
      {| Peer_PublicKey := pub;
         Peer_Endpoint :=
           Server_Endpoint server +:+ ":" +:+ fmt_d (Server_ListenPort server);
         Peer_AllowedIps := Join (Routes_Accept routes) ", " |} in
    let itf := if negb (String.eqb dns "") then set_Dns itf dns else itf in
    let n := {| Node_Interface := Some itf; Node_Peers := [server_peer] |} in
    Ok (peers, userNodes ++ [n])
  else Ok (peers, userNodes).

Fixpoint range_Users (server : Server) (pub : string) (cidr : CIDR)
    (idx : Z) (users : list User) (st : list Peer * list Node)
  : outcome (list Peer * list Node) :=
  match users with
  | [] => Ok st
  | user :: rest =>
      st ← user_step server pub cidr idx user st;
      range_Users server pub cidr (idx + 1) rest st
  end.

Definition buildNodes (env : gmap string string) (server : Server)
  : outcome (Node * list Node) :=
  pk ← getPrivateKey env (Server_PrivateKey server);
  k ← call (ParseKey pk);
  let pub := PublicKey_String k in
  cidr ← call (cidr_Parse (Server_Cidr server));
  let postup := buildPostUp (Server_Routes server) in
  let serverItf :=
    {| Interface_Address :=
         IP_String (cidr_First cidr) +:+ "/" +:+ cidr_Mask cidr;
       Interface_ListenPort := Some (Server_ListenPort server);
       Interface_PrivateKey := Some pk;
       Interface_Dns := None;
       Interface_PreUp := None;
       Interface_PostUp := Some postup;
       Interface_PreDown := None;
       Interface_PostDown := None |} in
  '(peers, userNodes) ← range_Users server pub cidr 0 (Server_Users server) ([], []);
  Ok ({| Node_Interface := Some serverItf; Node_Peers := peers |}, userNodes).

End BuildNodes.

(** ** An IPv4 instance of the address arithmetic *)

Module Ipv4.

Definition digit (c : ascii) : option N :=
  let n := N_of_ascii c in
  if ((48 <=? n) && (n <=? 57))%N then Some (n - 48)%N else None.

Fixpoint digits (acc : N) (s : string) : option N :=
  match s with
  | EmptyString => Some acc
  | String c s => d ← digit c; digits (10 * acc + d)%N s
  end.

(** A non-empty run of decimal digits. *)
Definition number (s : string) : option N :=
  match s with
  | EmptyString => None
  | _ => digits 0%N s
  end.

(** The fields of [s] between occurrences of the byte [sep]. *)
Fixpoint fields (sep : ascii) (s : string) : list string :=
  match s with
  | EmptyString => [EmptyString]
  | String c s =>
      if Ascii.eqb c sep then EmptyString :: fields sep s
      else match fields sep s with
           | f :: fs => String c f :: fs
           | [] => [String c EmptyString]
           end
  end.

Definition octet (s : string) : option N :=
  n ← number s; if (n <=? 255)%N then Some n else None.

Definition dotted_quad (s : string) : option N :=
  match fields "." s with
  | [a; b; c; d] =>
      a ← octet a; b ← octet b; c ← octet c; d ← octet d;
      Some (((a * 256 + b) * 256 + c) * 256 + d)%N
  | _ => None
  end.

(** A range: its network address as a 32-bit number and its prefix
    length. *)
Record Net : Type := { Net_base : N; Net_ones : N }.

Definition netmask (ones : N) : N := (2 ^ 32 - 2 ^ (32 - ones))%N.

(** Modelled from the spec: [cidr.Parse] is not part of the sources; the
    specification has it fail on malformed input.  Accepted here are a dotted
    quad, a slash and a prefix length of at most 32; the range's base is the
    address with its host bits cleared. *)
Definition Parse (s : string) : string + Net :=
  match fields "/" s with
  | [addr; ones] =>
      match dotted_quad addr, number ones with
      | Some a, Some n =>
          if (n <=? 32)%N then
            inr {| Net_base := N.land a (netmask n); Net_ones := n |}
          else inl ("invalid CIDR address: " +:+ s)
      | _, _ => inl ("invalid CIDR address: " +:+ s)
      end
  | _ => inl ("invalid CIDR address: " +:+ s)
  end.

(** Modelled from the spec: [cidr.GetNth] is not part of the sources; the
    specification's allocator gives ordinal 0 to the first usable address of
    the range and ordinal [n] to the [n]-th address after it.  Addresses are
    32-bit: arithmetic on them wraps at [2^32]. *)
Definition GetNth (c : Net) (n : Z) : N :=
  Z.to_N ((Z.of_N (Net_base c) + 1 + n) mod 2 ^ 32).

(** Modelled from the spec: [cidr.First], the range's first usable address,
    which the server takes. *)
Definition First (c : Net) : N := GetNth c 0.

(** Modelled from the spec: [cidr.Mask], the prefix length of the range. *)
Definition Mask (c : Net) : string := fmt_d (Net_ones c).

(** Modelled from the spec: the printed form of an address, as dotted
    decimal. *)
Definition IP_to_String (a : N) : string :=
  fmt_d (a / 2 ^ 24) +:+ "." +:+ fmt_d ((a / 2 ^ 16) mod 256) +:+ "." +:+
  fmt_d ((a / 2 ^ 8) mod 256) +:+ "." +:+ fmt_d (a mod 256).

End Ipv4.

(** Modelled from the spec: the [cidr] package is not part of this
    repository's sources.  The specification's allocator gives the server the
    first usable address of the range (ordinal 0) and the member at ordinal
    [n] the [n]-th address after it, and exposes the prefix length as the
    mask; its example has [10.0.0.0/24] yield [10.0.0.1] for the server and
    [10.0.0.2], [10.0.0.3] for ordinals 1 and 2. *)
#[global] Instance ipv4_cidr : CidrLib := {|
  CIDR := Ipv4.Net;
  IP := N;
  cidr_Parse := Ipv4.Parse;
  cidr_First := Ipv4.First;
  cidr_GetNth := Ipv4.GetNth;
  cidr_Mask := Ipv4.Mask;
  IP_String := Ipv4.IP_to_String
|}.

(** A stand-in for [wgtypes] with the same interface, for running the
    builder on concrete inputs: it accepts the 44-byte texts (the length of
    a base64-encoded 32-byte key) and prints a tagged copy of the private key
    as the public key.  The curve arithmetic is outside this development. *)
Definition sample_keys : KeyLib := {|
  Key := string;
  ParseKey := fun s =>
    if Nat.eqb (String.length s) 44 then inr s
    else inl "wgtypes: incorrect key size";
  PublicKey_String := fun k => "pub:" +:+ k
|}.

(** A text projection for concrete runs: commands joined by a semicolon,
    file lines ended by a line feed. *)
Definition newline : string := String (ascii_of_nat 10) EmptyString.

Definition sample_text : TextLib := {|
  command_separator := "; ";
  node_String := fun lines => String.concat "" (map (fun l => l +:+ newline) lines)
|}.

(** ** Vocabulary of the specification *)

(** The firewall bring-up sequence of the specification, step by step. *)
Definition create_chain : string :=
  "iptables -N wgroute || echo " +:+ quoted "wgroute chain already exists".
Definition attach_forward : string :=
  "iptables -C FORWARD -i wg0 -j wgroute || iptables -A FORWARD -i wg0 -j wgroute".
Definition enable_masquerade : string :=
  "iptables -t nat -A POSTROUTING -o eth0 -j MASQUERADE".
Definition flush_chain : string := "iptables -F wgroute".
Definition reject_rest : string :=
  "iptables -A wgroute -j REJECT --reject-with icmp-host-prohibited".
Definition completion_marker : string := "echo " +:+ quoted "Done".

Definition seven_step_commands (accept : list string) : list string :=
  [create_chain; attach_forward; enable_masquerade; flush_chain]
  ++ map accept_rule accept
  ++ [reject_rest; completion_marker].




(** A directive line, present only with its field. *)
Definition directive (name : string) (v : option string) : list string :=
  match v with
  | Some v => [name +:+ " = " +:+ v]
  | None => []
  end.

Definition peer_section (u : Peer) : list string :=
  ["[Peer]";
   "PublicKey = " +:+ Peer_PublicKey u;
   "Endpoint = " +:+ Peer_Endpoint u;
   "AllowedIPs = " +:+ Peer_AllowedIps u;
   ""].

(** The interface section with the hooks in the order the specification
    lists them: PreUp, PostUp, PreDown, PostDown. *)
Definition interface_section_spec (itf : Interface) : list string :=
  ["[Interface]"; "Address = " +:+ Interface_Address itf]
  ++ directive "ListenPort" (fmt_d <$> Interface_ListenPort itf)
  ++ directive "PrivateKey" (Interface_PrivateKey itf)
  ++ directive "DNS" (Interface_Dns itf)
  ++ directive "PreUp" (Interface_PreUp itf)
  ++ directive "PostUp" (Interface_PostUp itf)
  ++ directive "PreDown" (Interface_PreDown itf)
  ++ directive "PostDown" (Interface_PostDown itf)
  ++ [""].

(** The same section with the last two hooks exchanged: PreUp, PostUp,
    PostDown, PreDown. *)
Definition interface_section (itf : Interface) : list string :=
  ["[Interface]"; "Address = " +:+ Interface_Address itf]
  ++ directive "ListenPort" (fmt_d <$> Interface_ListenPort itf)
  ++ directive "PrivateKey" (Interface_PrivateKey itf)
  ++ directive "DNS" (Interface_Dns itf)
  ++ directive "PreUp" (Interface_PreUp itf)
  ++ directive "PostUp" (Interface_PostUp itf)
  ++ directive "PostDown" (Interface_PostDown itf)
  ++ directive "PreDown" (Interface_PreDown itf)
  ++ [""].

(** A line carrying the directive [name]. *)
Definition is_directive (name : string) (line : string) : bool :=
  String.prefix (name +:+ " = ") line.

(** The members of the list with their 0-based positions, counted from
    [idx]. *)
Fixpoint indexed (idx : Z) (users : list User) : list (Z * User) :=
  match users with
  | [] => []
  | u :: users => (idx, u) :: indexed (idx + 1) users
  end.

(** The members that are not revoked, each with its original position. *)
Definition active (idx : Z) (users : list User) : list (Z * User) :=
  filter (fun p => User_Revoked p.2 = false) (indexed idx users).

(** How many members before position [i] are not revoked: the place of
    member [i] among the generated entries. *)
Definition rank (users : list User) (i : nat) : nat :=
  length (filter (fun u => User_Revoked u = false) (take i users)).

Definition set_Revoked (b : bool) (u : User) : User :=
  {| User_PublicKey := User_PublicKey u; User_Revoked := b |}.

(** The input with the revoked flag of member [k] set to [b]. *)
Definition with_revoked (k : nat) (b : bool) (server : Server) : Server :=
  {| Server_PrivateKey := Server_PrivateKey server;
     Server_ListenPort := Server_ListenPort server;
     Server_Cidr := Server_Cidr server;
     Server_Routes := Server_Routes server;
     Server_Endpoint := Server_Endpoint server;
     Server_Dns := Server_Dns server;
     Server_Users := alter (set_Revoked b) k (Server_Users server) |}.

(** The address of the node generated for member [i], if there is one. *)
Definition member_address (server : Server) (out : Node * list Node) (i : nat)
  : option string :=
  u ← Server_Users server !! i;
  if User_Revoked u then None
  else n ← out.2 !! rank (Server_Users server) i;
       itf ← Node_Interface n;
       Some (Interface_Address itf).

(** The allowed range of the server's peer entry generated for member [i]. *)
Definition member_allowed (server : Server) (out : Node * list Node) (i : nat)
  : option string :=
  u ← Server_Users server !! i;
  if User_Revoked u then None
  else p ← Node_Peers out.1 !! rank (Server_Users server) i;
       Some (Peer_AllowedIps p).

Section Generated.
Context `{KeyLib, CidrLib, TextLib}.

(** The server's peer entry for a member at a position. *)
Definition peer_of_member (cidr : CIDR) (p : Z * User) : Peer :=
  {| Peer_PublicKey := User_PublicKey p.2;
     Peer_Endpoint := "";
     Peer_AllowedIps := user_ip cidr p.1 |}.

(** The node of a member at a position. *)
Definition node_of_member (server : Server) (pub : string) (cidr : CIDR)
    (routes : Routes) (p : Z * User) : Node :=
  {| Node_Interface := Some
       {| Interface_Address := user_ip cidr p.1;
          Interface_ListenPort := None;
          Interface_PrivateKey := None;
          Interface_Dns :=
            if decide (Join (Server_Dns server) "," = "") then None
            else Some (Join (Server_Dns server) ",");
          Interface_PreUp := None;
          Interface_PostUp := None;
          Interface_PreDown := None;
          Interface_PostDown := None |};
     Node_Peers :=
       [ {| Peer_PublicKey := pub;
            Peer_Endpoint :=
              Server_Endpoint server +:+ ":" +:+ fmt_d (Server_ListenPort server);
            Peer_AllowedIps := Join (Routes_Accept routes) ", " |} ] |}.

(** The server's node: the range's first address with the mask, the listen
    port, the private key, the firewall script, and one peer entry per
    member that is not revoked. *)
Definition server_node (server : Server) (pk : string) (cidr : CIDR) : Node :=
  {| Node_Interface := Some
       {| Interface_Address :=
            IP_String (cidr_First cidr) +:+ "/" +:+ cidr_Mask cidr;
          Interface_ListenPort := Some (Server_ListenPort server);
          Interface_PrivateKey := Some pk;
          Interface_Dns := None;
          Interface_PreUp := None;
          Interface_PostUp := Some (buildPostUp (Server_Routes server));
          Interface_PreDown := None;
          Interface_PostDown := None |};
     Node_Peers := peer_of_member cidr <$> active 0 (Server_Users server) |}.

(** The server's peer entry of a member at position [pos], recognised by
    its key and its range. *)
Definition entry_of (c : CIDR) (u : User) (pos : Z) (p : Peer) : Prop :=
  Peer_PublicKey p = User_PublicKey u /\ Peer_AllowedIps p = user_ip c pos.

#[global] Instance entry_of_dec (c : CIDR) (u : User) (pos : Z) (p : Peer)
  : Decision (entry_of c u pos p) :=
  and_dec (decide (Peer_PublicKey p = User_PublicKey u))
          (decide (Peer_AllowedIps p = user_ip c pos)).

(** What [main] prints and writes: the server's file and every member's. *)
Definition serialized (env : gmap string string) (server : Server)
  : outcome (string * list string) :=
  '(serverNode, userNodes) ← buildNodes env server;
  s ← buildNodeFile serverNode;
  us ← foldr (fun n acc => t ← buildNodeFile n; ts ← acc; Ok (t :: ts))
             (Ok []) userNodes;
  Ok (s, us).

End Generated.

(** Two environments that hold the same value for the variable the key
    source names. *)
Definition same_secret (env1 env2 : gmap string string) (server : Server)
  : Prop :=
  match Server_PrivateKey server with
  | Some pk => Getenv env1 (GetEnvVar pk) = Getenv env2 (GetEnvVar pk)
  | None => True
  end.

(** ** Sample inputs *)

(** A node whose interface carries both shutdown hooks. *)
Definition hooks_node : Node :=
  {| Node_Interface := Some
       {| Interface_Address := "10.0.0.1/24";
          Interface_ListenPort := None;
          Interface_PrivateKey := None;
          Interface_Dns := None;
          Interface_PreUp := None;
          Interface_PostUp := None;
          Interface_PreDown := Some "echo pre-down";
          Interface_PostDown := Some "echo post-down" |};
     Node_Peers := [] |}.

(** A 44-byte secret and an environment that holds it. *)
Definition sample_secret : string :=
  "AAAAAAAAAAAAAAAAAAAAAAAAAAAAAAAAAAAAAAAAAAA=".

Definition sample_env : gmap string string :=
  {[ "WG_PRIVATE_KEY" := sample_secret ]}.

Definition env_source : option PrivateKey :=
  Some {| PrivateKey_Store := PrivateKey_EnvVar "WG_PRIVATE_KEY" |}.

(** The example of the specification: range 10.0.0.0/24, three users of
    which the last is revoked, one accepted route, endpoint vpn.example.com,
    listen port 51820.  The example leaves the key source, the users' keys
    and the resolvers open. *)
Definition example_server (source : option PrivateKey)
    (key0 key1 key2 : string) (dns : list string) : Server :=
  {| Server_PrivateKey := source;
     Server_ListenPort := 51820%N;
     Server_Cidr := "10.0.0.0/24";
     Server_Routes := Some {| Routes_Accept := ["10.1.0.0/16"] |};
     Server_Endpoint := "vpn.example.com";
     Server_Dns := dns;
     Server_Users :=
       [ {| User_PublicKey := key0; User_Revoked := false |};
         {| User_PublicKey := key1; User_Revoked := false |};
         {| User_PublicKey := key2; User_Revoked := true |} ] |}.

Definition sample_server : Server :=
  example_server env_source "alice-key" "bob-key" "carol-key" ["10.0.0.1"].

(** The parsed range of the example. *)
Definition sample_range : Ipv4.Net :=
  {| Ipv4.Net_base := 167772160%N; Ipv4.Net_ones := 24%N |}.

(** The input [server] without its routes message, with the given users. *)
Definition without_routes (server : Server) (users : list User) : Server :=
  {| Server_PrivateKey := Server_PrivateKey server;
     Server_ListenPort := Server_ListenPort server;
     Server_Cidr := Server_Cidr server;
     Server_Routes := None;
     Server_Endpoint := Server_Endpoint server;
     Server_Dns := Server_Dns server;
     Server_Users := users |}.

(** No routes and one member that is not revoked. *)
Definition routeless_server : Server :=
  without_routes sample_server
    [ {| User_PublicKey := "alice-key"; User_Revoked := false |} ].

(** No routes and no member that is not revoked. *)
Definition idle_server : Server :=
  without_routes sample_server
    [ {| User_PublicKey := "carol-key"; User_Revoked := true |} ].

(** The builder and the serializer over the sample libraries. *)
Definition sample_build (env : gmap string string) (server : Server)
  : outcome (Node * list Node) :=
  @buildNodes sample_keys ipv4_cidr sample_text env server.

Definition sample_serialized (env : gmap string string) (server : Server)
  : outcome (string * list string) :=
  @serialized sample_keys ipv4_cidr sample_text env server.

(** The nodes built for [sample_server]. *)
Definition sample_out : Node * list Node :=
  (@server_node ipv4_cidr sample_text sample_server sample_secret sample_range,
   @node_of_member ipv4_cidr sample_server ("pub:" +:+ sample_secret)
     sample_range {| Routes_Accept := ["10.1.0.0/16"] |}
     <$> active 0 (Server_Users sample_server)).

(** The second user of [sample_server]. *)
Definition bob : User := {| User_PublicKey := "bob-key"; User_Revoked := false |}.

(** An environment with one more variable than [sample_env]. *)
Definition busier_env : gmap string string := <["HOME" := "/root"]> sample_env.

(** ** [main] *)

(** What the process does to the outside, in call order:
    [log.WithError(ctx, err).Error(msg)], [os.WriteFile(name, data, 0644)]
    and [fmt.Println(line)], where [fmt.Println()] prints the empty line. *)
Inductive event : Type :=
| LogError (msg err : string)
| WriteFile (name data : string)
| Println (line : string).

(** How the process ends: by [os.Exit(code)], by the return of [main], or by
    a panic. *)
Inductive ending : Type :=
| Exit (code : Z)
| Returned
| Crashed.

(** [filepath.Join("/etc/wireguard", "wg0.conf")]. *)
Definition wg0_conf : string := "/etc/wireguard/wg0.conf".

Section Main.
Context `{KeyLib, CidrLib, TextLib}.

(** The loop [for _, n := range wgUserNodes] of [main]. *)
Fixpoint print_users (ns : list Node) : list event * ending :=
  match ns with
  | [] => ([], Returned)
  | n :: ns =>
      match buildNodeFile n with
      | Ok text =>
          let '(evs, e) := print_users ns in
          (Println text :: Println "" :: evs, e)
      | _ => ([], Crashed)
      end
  end.

(** [main], as a function of what [readConfig] returned ([config]: its error
    or the server message), of the environment and of the error, if any, with
    which [os.WriteFile] answers a name and a content ([write_err]).  The
    result is the sequence of outside effects and the way the process
    ends. *)
Definition main (config : string + Server) (env : gmap string string)
    (write_err : string -> string -> option string) : list event * ending :=
  match config with
  | inl err => ([LogError "failed to read config" err], Exit 1)
  | inr server =>
      match buildNodes env server with
      | Failed err => ([LogError "failed to build nodes" err], Exit 1)
      | Panic => ([], Crashed)
      | Ok (wgServerNode, wgUserNodes) =>
          match buildNodeFile wgServerNode with
          | Ok data =>
              match write_err wg0_conf data with
              | Some err =>
                  ([WriteFile wg0_conf data;
                    LogError "failed to write server config" err], Exit 1)
              | None =>
                  match buildNodeFile wgServerNode with
                  | Ok text =>
                      let '(evs, e) := print_users wgUserNodes in
                      (WriteFile wg0_conf data
                       :: Println "Server" :: Println text
                       :: Println "" :: Println "" :: Println ""
                       :: Println "Users" :: evs, e)
                  | _ => ([WriteFile wg0_conf data; Println "Server"], Crashed)
                  end
              end
          | _ => ([], Crashed)
          end
      end
  end.

End Main.

(** The lines [main] prints, and the files it writes, in order. *)
Definition printed (evs : list event) : list string :=
  omap (fun e => match e with Println l => Some l | _ => None end) evs.

Definition written (evs : list event) : list (string * string) :=
  omap (fun e => match e with WriteFile n d => Some (n, d) | _ => None end) evs.

Definition logged (evs : list event) : list (string * string) :=
  omap (fun e => match e with LogError m err => Some (m, err) | _ => None end) evs.

(** The effects of a run that goes through to the end. *)
Definition full_run (text : string) (texts : list string) : list event :=
  WriteFile wg0_conf text
  :: Println "Server" :: Println text
  :: Println "" :: Println "" :: Println ""
  :: Println "Users"
  :: flat_map (fun t => [Println t; Println ""]) texts.

(** ** Variations of an input *)

(** The input with another user list. *)
Definition with_users (server : Server) (users : list User) : Server :=
  {| Server_PrivateKey := Server_PrivateKey server;
     Server_ListenPort := Server_ListenPort server;
     Server_Cidr := Server_Cidr server;
     Server_Routes := Server_Routes server;
     Server_Endpoint := Server_Endpoint server;
     Server_Dns := Server_Dns server;
     Server_Users := users |}.

(** The input with another endpoint and other resolvers. *)
Definition with_endpoint_dns (server : Server) (endpoint : string)
    (dns : list string) : Server :=
  {| Server_PrivateKey := Server_PrivateKey server;
     Server_ListenPort := Server_ListenPort server;
     Server_Cidr := Server_Cidr server;
     Server_Routes := Server_Routes server;
     Server_Endpoint := endpoint;
     Server_Dns := dns;
     Server_Users := Server_Users server |}.

(** Two user lists that agree on every revoked flag and on the public key of
    every user that is not revoked. *)
Definition same_active (us vs : list User) : Prop :=
  Forall2 (fun u v =>
             User_Revoked u = User_Revoked v
             /\ (User_Revoked u = false -> User_PublicKey u = User_PublicKey v))
          us vs.

(** The name of an optional field, when the field is present. *)
Definition named {A : Type} (name : string) (field : option A) : list string :=
  match field with
  | Some _ => [name]
  | None => []
  end.

(** The optional directives of an interface that are present, in the order
    [buildNodeFile] tests them. *)
Definition present (itf : Interface) : list string :=
  named "ListenPort" (Interface_ListenPort itf)
  ++ named "PrivateKey" (Interface_PrivateKey itf)
  ++ named "DNS" (Interface_Dns itf)
  ++ named "PreUp" (Interface_PreUp itf)
  ++ named "PostUp" (Interface_PostUp itf)
  ++ named "PostDown" (Interface_PostDown itf)
  ++ named "PreDown" (Interface_PreDown itf).



(** ** More sample inputs *)

(** A further user, and [sample_server] with that user appended. *)
Definition dave : User := {| User_PublicKey := "dave-key"; User_Revoked := false |}.

Definition grown_server : Server :=
  with_users sample_server (Server_Users sample_server ++ [dave]).

(** The nodes built for [grown_server]. *)
Definition grown_out : Node * list Node :=
  (@server_node ipv4_cidr sample_text grown_server sample_secret sample_range,
   @node_of_member ipv4_cidr grown_server ("pub:" +:+ sample_secret)
     sample_range {| Routes_Accept := ["10.1.0.0/16"] |}
     <$> active 0 (Server_Users grown_server)).

(** The users of [sample_server] with another key for the revoked one. *)
Definition rekeyed_users : list User :=
  [ {| User_PublicKey := "alice-key"; User_Revoked := false |};
    {| User_PublicKey := "bob-key"; User_Revoked := false |};
    {| User_PublicKey := "mallory-key"; User_Revoked := true |} ].

(** A file system that accepts every write. *)
Definition write_ok (name data : string) : option string := None.

(** * Properties *)

(** ** The builders *)

Lemma AddLine_lines (b : Builder) (line : string) :
  Builder_lines (AddLine b line) = Builder_lines b ++ [line].
Proof. reflexivity. Qed.

Lemma fold_AddLine {A : Type} (f : A -> string) (xs : list A) (b : Builder) :
  Builder_lines (fold_left (fun s x => AddLine s (f x)) xs b)
  = Builder_lines b ++ map f xs.
Proof.
  revert b. induction xs as [|x xs IH]; intros b; simpl.
  - by rewrite app_nil_r.
  - rewrite IH, AddLine_lines, <- app_assoc. reflexivity.
Qed.

Lemma fold_peer_lines (peers : list Peer) (c : Builder) :
  Builder_lines (fold_left peer_lines peers c)
  = Builder_lines c ++ flat_map peer_section peers.
Proof.
  revert c. induction peers as [|u peers IH]; intros c; simpl.
  - by rewrite app_nil_r.
  - rewrite IH. unfold peer_lines. rewrite !AddLine_lines, <- !app_assoc.
    reflexivity.
Qed.

(** ** Joining and splitting *)

Lemma append_cons (c : ascii) (a b : string) :
  String c a +:+ b = String c (a +:+ b).
Proof. reflexivity. Qed.



Lemma length_append (a b : string) :
  String.length (a +:+ b) = (String.length a + String.length b)%nat.
Proof.
  induction a as [|x a IH]; [reflexivity|].
  rewrite append_cons. simpl. by rewrite IH.
Qed.









(** ** Key resolution *)

Lemma getPrivateKey_nil (env : gmap string string) :
  getPrivateKey env None = Panic.
Proof. reflexivity. Qed.

Lemma eqb_empty (s : string) : String.eqb s "" = bool_decide (s = "").
Proof.
  destruct (String.eqb_spec s ""); symmetry;
    [by apply bool_decide_eq_true | by apply bool_decide_eq_false].
Qed.


(** ** The firewall script *)

Lemma buildPostUp_script_lines (pu : Routes) :
  Builder_lines (buildPostUp_script pu) = seven_step_commands (Routes_Accept pu).
Proof.
  unfold buildPostUp_script, seven_step_commands.
  rewrite !AddLine_lines, fold_AddLine, !AddLine_lines, <- !app_assoc.
  reflexivity.
Qed.


(** ** The node serializer *)

Lemma buildNodeFile_lines_sections (itf : Interface) (peers : list Peer) :
  buildNodeFile_lines {| Node_Interface := Some itf; Node_Peers := peers |}
  = Ok (interface_section itf ++ flat_map peer_section peers).
Proof.
  unfold buildNodeFile_lines, buildNodeFile_builder; simpl.
  f_equal. rewrite fold_peer_lines. f_equal.
  destruct itf as [addr [port|] [key|] [dns|] [preup|] [postup|] [predown|]
                     [postdown|]]; reflexivity.
Qed.

Lemma buildNodeFile_lines_nil (peers : list Peer) :
  buildNodeFile_lines {| Node_Interface := None; Node_Peers := peers |} = Panic.
Proof. reflexivity. Qed.

(** C3, as the code has it.  For every node that carries an interface, the
    rendered lines are the interface section -- the header, the required
    Address line, then each optional directive only when its field is
    present, in the fixed order ListenPort, PrivateKey, DNS, PreUp, PostUp,
    PostDown, PreDown, then a blank line -- followed by one section per peer,
    in order, each made of the header and the PublicKey, Endpoint and
    AllowedIPs lines and closed by a blank line. *)
Theorem buildNodeFile_section_order (itf : Interface) (peers : list Peer) :
  buildNodeFile_lines {| Node_Interface := Some itf; Node_Peers := peers |}
  = Ok (["[Interface]"; "Address = " +:+ Interface_Address itf]
        ++ directive "ListenPort" (fmt_d <$> Interface_ListenPort itf)
        ++ directive "PrivateKey" (Interface_PrivateKey itf)
        ++ directive "DNS" (Interface_Dns itf)
        ++ directive "PreUp" (Interface_PreUp itf)
        ++ directive "PostUp" (Interface_PostUp itf)
        ++ directive "PostDown" (Interface_PostDown itf)
        ++ directive "PreDown" (Interface_PreDown itf)
        ++ [""]
        ++ flat_map
             (fun u => ["[Peer]";
                        "PublicKey = " +:+ Peer_PublicKey u;
                        "Endpoint = " +:+ Peer_Endpoint u;
                        "AllowedIPs = " +:+ Peer_AllowedIps u;
                        ""])
             peers).
Proof.
  rewrite buildNodeFile_lines_sections. unfold interface_section.
  rewrite <- !app_assoc. reflexivity.
Qed.

(** C3, as the specification words it, fails: with both shutdown hooks
    present the PostDown line is written before the PreDown line. *)
Lemma buildNodeFile_hooks_out_of_spec_order :
  buildNodeFile_lines hooks_node
  = Ok ["[Interface]"; "Address = 10.0.0.1/24";
        "PostDown = echo post-down"; "PreDown = echo pre-down"; ""]
  /\ (exists itf,
        Node_Interface hooks_node = Some itf
        /\ buildNodeFile_lines hooks_node
           <> Ok (interface_section_spec itf
                  ++ flat_map peer_section (Node_Peers hooks_node))).
Proof.
  split; [reflexivity|].
  eexists; split; [reflexivity|]. discriminate.
Qed.

(** ** The member loop *)

Lemma indexed_lookup (idx : Z) (users : list User) (i : nat) :
  indexed idx users !! i = (fun u => (idx + Z.of_nat i, u)) <$> users !! i.
Proof.
  revert idx i. induction users as [|u users IH]; intros idx [|i]; simpl;
    try reflexivity.
  - do 2 f_equal; lia.
  - rewrite IH. destruct (users !! i); simpl; [|reflexivity].
    do 2 f_equal; lia.
Qed.

Lemma active_cons (idx : Z) (u : User) (users : list User) :
  active idx (u :: users)
  = (if User_Revoked u then [] else [(idx, u)]) ++ active (idx + 1) users.
Proof.
  unfold active; simpl. rewrite filter_cons; simpl.
  destruct (User_Revoked u); reflexivity.
Qed.

Lemma active_not_revoked (idx : Z) (users : list User) :
  Forall (fun p => User_Revoked p.2 = false) (active idx users).
Proof.
  apply Forall_forall. intros p Hp.
  apply list_elem_of_filter in Hp. by destruct Hp.
Qed.

Lemma active_bounds (idx : Z) (users : list User) (p : Z * User) :
  p ∈ active idx users -> idx <= p.1 < idx + Z.of_nat (length users).
Proof.
  intros Hp. apply list_elem_of_filter in Hp as [_ Hp].
  apply list_elem_of_lookup in Hp as [i Hi].
  rewrite indexed_lookup in Hi.
  destruct (users !! i) as [u|] eqn:Hu; [|discriminate].
  apply lookup_lt_Some in Hu. injection Hi as <-. simpl. lia.
Qed.

Lemma active_length (idx : Z) (users : list User) :
  length (active idx users)
  = length (filter (fun u => User_Revoked u = false) users).
Proof.
  revert idx. induction users as [|u users IH]; intros idx; [reflexivity|].
  rewrite active_cons, filter_cons, length_app, IH.
  destruct (User_Revoked u); reflexivity.
Qed.

Lemma active_lookup (idx : Z) (users : list User) (i : nat) (u : User) :
  users !! i = Some u -> User_Revoked u = false ->
  active idx users !! rank users i = Some (idx + Z.of_nat i, u).
Proof.
  revert idx i. induction users as [|u0 users IH]; intros idx i Hi Hu;
    [done|].
  rewrite active_cons. destruct i as [|i]; simpl in Hi.
  - injection Hi as ->. rewrite Hu. simpl. do 2 f_equal. lia.
  - unfold rank; simpl. rewrite filter_cons.
    specialize (IH (idx + 1) i Hi Hu). unfold rank in IH.
    destruct (User_Revoked u0); simpl; rewrite IH; do 2 f_equal; lia.
Qed.

Lemma active_all_revoked (idx : Z) (users : list User) :
  forallb User_Revoked users = true -> active idx users = [].
Proof.
  revert idx. induction users as [|u users IH]; intros idx Hall; [reflexivity|].
  simpl in Hall. apply andb_true_iff in Hall as [Hu Hall].
  rewrite active_cons, Hu. simpl. by apply IH.
Qed.

Lemma not_all_revoked (users : list User) (u : User) :
  u ∈ users -> User_Revoked u = false -> forallb User_Revoked users = false.
Proof.
  intros Hin Hu. induction Hin as [u users|u v users Hin IH]; simpl.
  - by rewrite Hu.
  - rewrite IH by done. apply andb_false_r.
Qed.

Section LoopFacts.
Context `{KeyLib, CidrLib, TextLib}.

Lemma user_step_routes (server : Server) (pub : string) (cidr : CIDR)
    (routes : Routes) (idx : Z) (u : User) (ps : list Peer) (ns : list Node) :
  Server_Routes server = Some routes ->
  user_step server pub cidr idx u (ps, ns)
  = Ok (ps ++ (peer_of_member cidr
                 <$> (if User_Revoked u then [] else [(idx, u)])),
        ns ++ (node_of_member server pub cidr routes
                 <$> (if User_Revoked u then [] else [(idx, u)]))).
Proof.
  intros Hr. unfold user_step. destruct (User_Revoked u); simpl.
  - by rewrite !app_nil_r.
  - rewrite Hr. simpl. unfold node_of_member, peer_of_member. simpl.
    rewrite eqb_empty. case_decide as Hd.
    + rewrite bool_decide_eq_true_2 by done. reflexivity.
    + rewrite bool_decide_eq_false_2 by done. reflexivity.
Qed.

Lemma range_Users_routes (server : Server) (pub : string) (cidr : CIDR)
    (routes : Routes) (idx : Z) (users : list User)
    (ps : list Peer) (ns : list Node) :
  Server_Routes server = Some routes ->
  range_Users server pub cidr idx users (ps, ns)
  = Ok (ps ++ (peer_of_member cidr <$> active idx users),
        ns ++ (node_of_member server pub cidr routes <$> active idx users)).
Proof.
  intros Hr. revert idx ps ns.
  induction users as [|u users IH]; intros idx ps ns.
  - simpl. by rewrite !app_nil_r.
  - cbn [range_Users]. rewrite (user_step_routes _ _ _ _ _ _ _ _ Hr).
    simpl. rewrite IH, active_cons, !fmap_app, !app_assoc. reflexivity.
Qed.

Lemma range_Users_no_routes (server : Server) (pub : string) (cidr : CIDR)
    (idx : Z) (users : list User) (ps : list Peer) (ns : list Node) :
  Server_Routes server = None ->
  range_Users server pub cidr idx users (ps, ns)
  = if forallb User_Revoked users then Ok (ps, ns) else Panic.
Proof.
  intros Hr. revert idx ps ns.
  induction users as [|u users IH]; intros idx ps ns; [reflexivity|].
  cbn [range_Users forallb]. unfold user_step.
  destruct (User_Revoked u); simpl.
  - apply IH.
  - rewrite Hr. reflexivity.
Qed.

End LoopFacts.

(** ** The topology builder *)

Section BuildFacts.
Context `{KeyLib, CidrLib, TextLib}.

Lemma buildNodes_run (env : gmap string string) (server : Server)
    (pk : string) (k : Key) (c : CIDR) :
  getPrivateKey env (Server_PrivateKey server) = Ok pk ->
  ParseKey pk = inr k ->
  cidr_Parse (Server_Cidr server) = inr c ->
  buildNodes env server
  = match Server_Routes server with
    | Some routes =>
        Ok (server_node server pk c,
            node_of_member server (PublicKey_String k) c routes
              <$> active 0 (Server_Users server))
    | None =>
        if forallb User_Revoked (Server_Users server)
        then Ok (server_node server pk c, [])
        else Panic
    end.
Proof.
  intros Hpk Hk Hc. unfold buildNodes. rewrite Hpk. simpl.
  rewrite Hk. simpl. rewrite Hc. simpl.
  destruct (Server_Routes server) as [routes|] eqn:Hr.
  - rewrite (range_Users_routes _ _ _ routes) by done.
    simpl. unfold server_node. by rewrite Hr.
  - rewrite range_Users_no_routes by done.
    destruct (forallb User_Revoked (Server_Users server)) eqn:Hall;
      [|reflexivity].
    simpl. unfold server_node. rewrite Hr, active_all_revoked by done.
    reflexivity.
Qed.

Lemma buildNodes_Ok_inv (env : gmap string string) (server : Server)
    (out : Node * list Node) :
  buildNodes env server = Ok out ->
  exists pk k c,
    getPrivateKey env (Server_PrivateKey server) = Ok pk
    /\ ParseKey pk = inr k
    /\ cidr_Parse (Server_Cidr server) = inr c.
Proof.
  intros Hb. unfold buildNodes in Hb.
  destruct (getPrivateKey env (Server_PrivateKey server)) as [pk| |] eqn:Hpk;
    simpl in Hb; try discriminate.
  destruct (ParseKey pk) as [|k] eqn:Hk; simpl in Hb; try discriminate.
  destruct (cidr_Parse (Server_Cidr server)) as [|c] eqn:Hc; simpl in Hb;
    try discriminate.
  by exists pk, k, c.
Qed.

(** A build that returns has either a routes message or nothing but revoked
    members; its nodes are the ones listed by [server_node] and
    [node_of_member]. *)
Lemma buildNodes_Ok_shape (env : gmap string string) (server : Server)
    (out : Node * list Node) :
  buildNodes env server = Ok out ->
  exists pk k c,
    getPrivateKey env (Server_PrivateKey server) = Ok pk
    /\ ParseKey pk = inr k
    /\ cidr_Parse (Server_Cidr server) = inr c
    /\ out.1 = server_node server pk c
    /\ match Server_Routes server with
       | Some routes =>
           out.2 = node_of_member server (PublicKey_String k) c routes
                     <$> active 0 (Server_Users server)
       | None => out.2 = [] /\ active 0 (Server_Users server) = []
       end.
Proof.
  intros Hb. destruct (buildNodes_Ok_inv _ _ _ Hb) as (pk & k & c & Hpk & Hk & Hc).
  exists pk, k, c. rewrite (buildNodes_run _ _ _ _ _ Hpk Hk Hc) in Hb.
  do 3 (split; [done|]).
  destruct (Server_Routes server) as [routes|].
  - injection Hb as <-. by split.
  - destruct (forallb User_Revoked (Server_Users server)) eqn:Hall;
      [|discriminate].
    injection Hb as <-. split; [done|]. split; [done|].
    by apply active_all_revoked.
Qed.

End BuildFacts.

(** ** Address allocation *)

Section Addresses.
Context `{KeyLib, CidrLib, TextLib}.

Lemma member_address_run (env : gmap string string) (server : Server)
    (pk : string) (k : Key) (c : CIDR) (routes : Routes) (i : nat) (u : User) :
  getPrivateKey env (Server_PrivateKey server) = Ok pk ->
  ParseKey pk = inr k ->
  cidr_Parse (Server_Cidr server) = inr c ->
  Server_Routes server = Some routes ->
  Server_Users server !! i = Some u ->
  User_Revoked u = false ->
  exists out,
    buildNodes env server = Ok out
    /\ member_address server out i = Some (user_ip c (Z.of_nat i))
    /\ member_allowed server out i = Some (user_ip c (Z.of_nat i)).
Proof.
  intros Hpk Hk Hc Hr Hi Hu. eexists. split.
  { rewrite (buildNodes_run _ _ _ _ _ Hpk Hk Hc), Hr. reflexivity. }
  unfold member_address, member_allowed. rewrite Hi. simpl. rewrite Hu.
  rewrite !list_lookup_fmap, (active_lookup 0 _ _ _ Hi Hu). simpl.
  rewrite Z.add_0_l. by split.
Qed.

(** C1.  When the build returns, a member that is not revoked and stands at
    0-based position [i] of the user list has, both as the address of its
    own node and as the allowed range of its peer entry on the server, the
    address the allocator gives for ordinal [i + 1], with the /32 mask; and
    setting the revoked flag of a member at any other position [k] to
    either value leaves the build returning and leaves the address of
    member [i] as it was. *)
Theorem member_address_by_position (env : gmap string string)
    (server : Server) (out : Node * list Node) (i : nat) (u : User) :
  buildNodes env server = Ok out ->
  Server_Users server !! i = Some u ->
  User_Revoked u = false ->
  exists c,
    cidr_Parse (Server_Cidr server) = inr c
    /\ member_address server out i
       = Some (IP_String (cidr_GetNth c (Z.of_nat i + 1)) +:+ "/32")
    /\ member_allowed server out i
       = Some (IP_String (cidr_GetNth c (Z.of_nat i + 1)) +:+ "/32")
    /\ forall (k : nat) (b : bool), k <> i ->
         exists out',
           buildNodes env (with_revoked k b server) = Ok out'
           /\ member_address (with_revoked k b server) out' i
              = member_address server out i
           /\ member_allowed (with_revoked k b server) out' i
              = member_allowed server out i.
Proof.
  intros Hb Hi Hu.
  destruct (buildNodes_Ok_shape _ _ _ Hb)
    as (pk & k0 & c & Hpk & Hk & Hc & _ & Hnodes).
  destruct (Server_Routes server) as [routes|] eqn:Hr; cycle 1.
  { destruct Hnodes as [_ Hnone].
    pose proof (active_lookup 0 _ _ _ Hi Hu) as Hl.
    rewrite Hnone in Hl. discriminate. }
  destruct (member_address_run _ _ _ _ _ _ _ _ Hpk Hk Hc Hr Hi Hu)
    as (out0 & Hb0 & Ha & Hal).
  assert (out0 = out) as -> by congruence.
  exists c. split; [done|]. split; [exact Ha|]. split; [exact Hal|].
  intros k b Hne.
  assert (Hi' : Server_Users (with_revoked k b server) !! i = Some u).
  { simpl. by rewrite list_lookup_alter_ne. }
  destruct (member_address_run env (with_revoked k b server)
              pk k0 c routes i u Hpk Hk Hc Hr Hi' Hu)
    as (out' & Hb' & Ha' & Hal').
  exists out'. split; [done|]. by rewrite Ha, Hal, Ha', Hal'.
Qed.

End Addresses.

(** ** The peer graph *)

Lemma filter_none {A : Type} (P : A -> Prop) `{forall x, Decision (P x)}
    (l : list A) :
  Forall (fun x => ~ P x) l -> filter P l = [].
Proof.
  induction 1 as [|x l Hx _ IH]; [reflexivity|].
  by rewrite filter_cons_False.
Qed.

Section Peers.
Context `{KeyLib, CidrLib, TextLib}.

Lemma no_entry_elsewhere (c : CIDR) (u : User) (pos idx : Z)
    (users : list User) :
  (forall a, idx <= a < idx + Z.of_nat (length users) ->
             user_ip c a = user_ip c pos -> a = pos) ->
  ~ (idx <= pos < idx + Z.of_nat (length users)) ->
  filter (entry_of c u pos) (peer_of_member c <$> active idx users) = [].
Proof.
  intros Hinj Hout. apply filter_none, Forall_fmap, Forall_forall.
  intros p Hp [_ Hip]. simpl in Hip.
  apply active_bounds in Hp. apply Hinj in Hip; lia.
Qed.

Lemma one_entry_per_member (c : CIDR) (idx : Z) (users : list User)
    (i : nat) (u : User) :
  (forall a b, idx <= a < idx + Z.of_nat (length users) ->
               idx <= b < idx + Z.of_nat (length users) ->
               user_ip c a = user_ip c b -> a = b) ->
  users !! i = Some u ->
  User_Revoked u = false ->
  length (filter (entry_of c u (idx + Z.of_nat i))
            (peer_of_member c <$> active idx users)) = 1%nat.
Proof.
  revert idx i. induction users as [|u0 users IH]; intros idx i Hinj Hi Hu;
    [done|].
  change (length (u0 :: users)) with (S (length users)) in Hinj.
  rewrite Nat2Z.inj_succ in Hinj.
  rewrite active_cons, fmap_app, filter_app, length_app.
  destruct i as [|i]; simpl in Hi.
  - injection Hi as ->. rewrite Hu. simpl.
    rewrite filter_cons_True by (split; simpl; [done | f_equal; f_equal; lia]).
    rewrite no_entry_elsewhere; [reflexivity| |lia].
    intros a Ha Hip. apply Hinj; lia || done.
  - assert (Htail :
        length (filter (entry_of c u (idx + Z.of_nat (S i)))
                  (peer_of_member c <$> active (idx + 1) users)) = 1%nat).
    { replace (idx + Z.of_nat (S i)) with (idx + 1 + Z.of_nat i) by lia.
      apply IH; [|done|done].
      intros a b Ha Hb. apply Hinj; lia. }
    apply lookup_lt_Some in Hi.
    rewrite Htail. destruct (User_Revoked u0); [reflexivity|]. simpl.
    rewrite filter_cons_False; [reflexivity|].
    intros [_ Hip]. simpl in Hip. apply Hinj in Hip; lia.
Qed.

End Peers.

Section PeerSymmetry.
Context `{KeyLib, CidrLib, TextLib}.

(** C5.  When the build returns and the allocator gives distinct members
    distinct address texts, then for every member [u] that is not revoked,
    at position [i]: the server's peer list holds exactly one entry with
    [u]'s public key and [u]'s /32 address as allowed range, and [u]'s own
    node, found at [u]'s place among the generated nodes, has that /32
    address and exactly one peer, whose public key is the public key derived
    from the server's private key.  The server's peer entries and the
    member nodes are generated from the members that are not revoked and
    from no others: there are as many of each as there are such members. *)
Theorem peer_symmetry (env : gmap string string) (server : Server)
    (srv : Node) (nodes : list Node) :
  buildNodes env server = Ok (srv, nodes) ->
  (forall c, cidr_Parse (Server_Cidr server) = inr c ->
     forall a b : Z,
       0 <= a < Z.of_nat (length (Server_Users server)) ->
       0 <= b < Z.of_nat (length (Server_Users server)) ->
       user_ip c a = user_ip c b -> a = b) ->
  exists pk k c,
    getPrivateKey env (Server_PrivateKey server) = Ok pk
    /\ ParseKey pk = inr k
    /\ cidr_Parse (Server_Cidr server) = inr c
    /\ (forall (i : nat) (u : User),
          Server_Users server !! i = Some u ->
          User_Revoked u = false ->
          length (filter (entry_of c u (Z.of_nat i)) (Node_Peers srv)) = 1%nat
          /\ exists n itf sp,
               nodes !! rank (Server_Users server) i = Some n
               /\ Node_Interface n = Some itf
               /\ Interface_Address itf = user_ip c (Z.of_nat i)
               /\ Node_Peers n = [sp]
               /\ Peer_PublicKey sp = PublicKey_String k)
    /\ Node_Peers srv = peer_of_member c <$> active 0 (Server_Users server)
    /\ length (Node_Peers srv)
       = length (filter (fun u => User_Revoked u = false) (Server_Users server))
    /\ length nodes
       = length (filter (fun u => User_Revoked u = false) (Server_Users server)).
Proof.
  intros Hb Hinj.
  destruct (buildNodes_Ok_shape _ _ _ Hb)
    as (pk & k & c & Hpk & Hk & Hc & Hsrv & Hnodes).
  simpl in Hsrv, Hnodes. subst srv.
  exists pk, k, c. do 3 (split; [done|]).
  split; [|split; [reflexivity|split]].
  - intros i u Hi Hu. split.
    + pose proof (one_entry_per_member c 0 _ i u (Hinj c Hc) Hi Hu) as Hone.
      by rewrite Z.add_0_l in Hone.
    + pose proof (active_lookup 0 _ _ _ Hi Hu) as Hl.
      destruct (Server_Routes server) as [routes|].
      * subst nodes. rewrite list_lookup_fmap, Hl. simpl.
        rewrite Z.add_0_l. by eexists _, _, _.
      * destruct Hnodes as [_ Hnone]. rewrite Hnone in Hl. discriminate.
  - simpl. by rewrite length_fmap, active_length.
  - rewrite <- (active_length 0).
    destruct (Server_Routes server) as [routes|].
    + subst nodes. by rewrite length_fmap.
    + destruct Hnodes as [-> ->]. reflexivity.
Qed.

End PeerSymmetry.

(** ** Absent routes *)

Section AbsentRoutes.
Context `{KeyLib, CidrLib, TextLib}.

(** C4, where the code departs from it.  With a resolvable key and a valid
    range, an input without a routes message and with at least one member
    that is not revoked makes the build panic: the member's peer reads
    [server.Routes.Accept] through the nil pointer. *)
Theorem buildNodes_panics_without_routes (env : gmap string string)
    (server : Server) (pk : string) (k : Key) (c : CIDR) (u : User) :
  getPrivateKey env (Server_PrivateKey server) = Ok pk ->
  ParseKey pk = inr k ->
  cidr_Parse (Server_Cidr server) = inr c ->
  Server_Routes server = None ->
  u ∈ Server_Users server ->
  User_Revoked u = false ->
  buildNodes env server = Panic.
Proof.
  intros Hpk Hk Hc Hr Hin Hu.
  rewrite (buildNodes_run _ _ _ _ _ Hpk Hk Hc), Hr.
  by rewrite (not_all_revoked _ _ Hin Hu).
Qed.

(** With a key message and a routes message present the build never
    panics: it returns the nodes or an error. *)
Lemma buildNodes_no_panic (env : gmap string string) (server : Server)
    (source : PrivateKey) (routes : Routes) :
  Server_PrivateKey server = Some source ->
  Server_Routes server = Some routes ->
  returns (buildNodes env server) \/ fails (buildNodes env server).
Proof.
  intros Hs Hr.
  destruct (getPrivateKey env (Server_PrivateKey server)) as [pk|msg|] eqn:Hpk.
  - destruct (ParseKey pk) as [msg|k] eqn:Hk.
    { right. exists msg. unfold buildNodes. rewrite Hpk. simpl. by rewrite Hk. }
    destruct (cidr_Parse (Server_Cidr server)) as [msg|c] eqn:Hc.
    { right. exists msg. unfold buildNodes. rewrite Hpk. simpl.
      rewrite Hk. simpl. by rewrite Hc. }
    left. rewrite (buildNodes_run _ _ _ _ _ Hpk Hk Hc), Hr. by eexists.
  - right. exists msg. unfold buildNodes. by rewrite Hpk.
  - rewrite Hs in Hpk. unfold getPrivateKey in Hpk. simpl in Hpk.
    destruct (PrivateKey_Store source); [|discriminate].
    destruct (String.eqb _ _); discriminate.
Qed.

(** Without a key message the build panics in [getPrivateKey], on
    [pk.Store]. *)
Lemma buildNodes_panics_without_key (env : gmap string string)
    (server : Server) :
  Server_PrivateKey server = None -> buildNodes env server = Panic.
Proof. intros Hs. unfold buildNodes. by rewrite Hs. Qed.

(** X3.  The inputs on which the build panics: those without a key message,
    and those with a resolvable key and a valid range but without a routes
    message, on which the loop reaches a member that is not revoked. *)
Lemma buildNodes_panics_iff (env : gmap string string) (server : Server) :
  panics (buildNodes env server)
  <-> Server_PrivateKey server = None
      \/ (exists pk k c,
            getPrivateKey env (Server_PrivateKey server) = Ok pk
            /\ ParseKey pk = inr k
            /\ cidr_Parse (Server_Cidr server) = inr c
            /\ Server_Routes server = None
            /\ forallb User_Revoked (Server_Users server) = false).
Proof.
  unfold panics. split.
  - intros Hp.
    destruct (Server_PrivateKey server) as [source|] eqn:Hs; [right | by left].
    destruct (getPrivateKey env (Some source)) as [pk|msg|] eqn:Hpk.
    + destruct (ParseKey pk) as [msg|k] eqn:Hk.
      { unfold buildNodes in Hp. rewrite Hs, Hpk in Hp. simpl in Hp.
        by rewrite Hk in Hp. }
      destruct (cidr_Parse (Server_Cidr server)) as [msg|c] eqn:Hc.
      { unfold buildNodes in Hp. rewrite Hs, Hpk in Hp. simpl in Hp.
        rewrite Hk in Hp. simpl in Hp. by rewrite Hc in Hp. }
      rewrite <- Hs in Hpk.
      rewrite (buildNodes_run _ _ _ _ _ Hpk Hk Hc) in Hp.
      destruct (Server_Routes server) as [routes|]; [discriminate|].
      destruct (forallb User_Revoked (Server_Users server)) eqn:Hall;
        [discriminate|].
      by exists pk, k, c.
    + unfold buildNodes in Hp. by rewrite Hs, Hpk in Hp.
    + unfold getPrivateKey in Hpk. simpl in Hpk.
      destruct (PrivateKey_Store source); [|discriminate].
      destruct (String.eqb _ _); discriminate.
  - intros [Hs | (pk & k & c & Hpk & Hk & Hc & Hr & Hall)].
    + by apply buildNodes_panics_without_key.
    + by rewrite (buildNodes_run _ _ _ _ _ Hpk Hk Hc), Hr, Hall.
Qed.

(** C2, where the code departs from it and where it agrees.  When the build
    returns on an input without a routes message, the server's file is
    exactly an interface section with the Address, ListenPort and PrivateKey
    lines and a PostUp line whose value is empty: the line is there, the
    firewall commands are not.  When the build returns on an input with no
    resolver, no line of any member's file is a DNS directive. *)
Theorem server_PostUp_without_routes (env : gmap string string)
    (server : Server) (srv : Node) (nodes : list Node) :
  buildNodes env server = Ok (srv, nodes) ->
  (Server_Routes server = None ->
     exists pk c,
       getPrivateKey env (Server_PrivateKey server) = Ok pk
       /\ cidr_Parse (Server_Cidr server) = inr c
       /\ buildNodeFile_lines srv
          = Ok ["[Interface]";
                "Address = " +:+ IP_String (cidr_First c) +:+ "/" +:+ cidr_Mask c;
                "ListenPort = " +:+ fmt_d (Server_ListenPort server);
                "PrivateKey = " +:+ pk;
                "PostUp = ";
                ""])
  /\ (Server_Dns server = [] ->
      forall n, n ∈ nodes ->
        exists lines,
          buildNodeFile_lines n = Ok lines
          /\ Forall (fun l => is_directive "DNS" l = false) lines).
Proof.
  intros Hb.
  destruct (buildNodes_Ok_shape _ _ _ Hb)
    as (pk & k & c & Hpk & Hk & Hc & Hsrv & Hnodes).
  simpl in Hsrv, Hnodes. split.
  - intros Hr. rewrite Hr in Hnodes. destruct Hnodes as [_ Hnone].
    exists pk, c. do 2 (split; [done|]).
    subst srv. unfold server_node. rewrite Hnone, Hr.
    rewrite buildNodeFile_lines_sections. reflexivity.
  - intros Hdns n Hn.
    destruct (Server_Routes server) as [routes|];
      [|destruct Hnodes as [-> _]; by apply elem_of_nil in Hn].
    subst nodes. apply list_elem_of_fmap in Hn as (p & -> & _).
    unfold node_of_member. rewrite Hdns. simpl.
    eexists. split; [apply buildNodeFile_lines_sections|].
    repeat constructor.
Qed.

End AbsentRoutes.

(** ** Peer sections of the server's file *)

Lemma peer_section_empty_endpoint (peers : list Peer) :
  Forall (fun p => Peer_Endpoint p = "") peers ->
  flat_map peer_section peers
  = flat_map (fun u => ["[Peer]";
                        "PublicKey = " +:+ Peer_PublicKey u;
                        "Endpoint = ";
                        "AllowedIPs = " +:+ Peer_AllowedIps u;
                        ""]) peers.
Proof.
  induction 1 as [|p peers Hp _ IH]; [reflexivity|].
  cbn [flat_map]. rewrite IH. unfold peer_section. rewrite Hp. reflexivity.
Qed.

Section ServerPeers.
Context `{KeyLib, CidrLib, TextLib}.

(** C10.  The lines of every node that carries an interface end with one
    section per peer, each holding the PublicKey, Endpoint and AllowedIPs
    lines whatever the endpoint's value; and when the build returns, every
    peer of the server node has the empty endpoint, so that each of its
    sections is rendered with the line "Endpoint = " and nothing after the
    equals sign and space. *)
Theorem server_peers_rendered_without_endpoint (env : gmap string string)
    (server : Server) (srv : Node) (nodes : list Node) :
  buildNodes env server = Ok (srv, nodes) ->
  (forall (itf : Interface) (peers : list Peer),
     buildNodeFile_lines {| Node_Interface := Some itf; Node_Peers := peers |}
     = Ok (interface_section itf
           ++ flat_map (fun u => ["[Peer]";
                                  "PublicKey = " +:+ Peer_PublicKey u;
                                  "Endpoint = " +:+ Peer_Endpoint u;
                                  "AllowedIPs = " +:+ Peer_AllowedIps u;
                                  ""]) peers))
  /\ Forall (fun p => Peer_Endpoint p = "") (Node_Peers srv)
  /\ exists itf,
       Node_Interface srv = Some itf
       /\ buildNodeFile_lines srv
          = Ok (interface_section itf
                ++ flat_map (fun u => ["[Peer]";
                                       "PublicKey = " +:+ Peer_PublicKey u;
                                       "Endpoint = ";
                                       "AllowedIPs = " +:+ Peer_AllowedIps u;
                                       ""]) (Node_Peers srv)).
Proof.
  intros Hb. split; [apply buildNodeFile_lines_sections|].
  destruct (buildNodes_Ok_shape _ _ _ Hb)
    as (pk & k & c & _ & _ & _ & Hsrv & _).
  simpl in Hsrv. subst srv. unfold server_node. cbn [Node_Peers Node_Interface].
  assert (Hempty : Forall (fun p => Peer_Endpoint p = "")
                     (peer_of_member c <$> active 0 (Server_Users server))).
  { apply Forall_fmap, Forall_forall. by intros p _. }
  split; [exact Hempty|].
  eexists. split; [reflexivity|].
  rewrite buildNodeFile_lines_sections.
  by rewrite (peer_section_empty_endpoint _ Hempty).
Qed.

End ServerPeers.

(** ** Determinism *)

Lemma getPrivateKey_same_secret (env1 env2 : gmap string string)
    (server : Server) :
  same_secret env1 env2 server ->
  getPrivateKey env1 (Server_PrivateKey server)
  = getPrivateKey env2 (Server_PrivateKey server).
Proof.
  unfold same_secret, getPrivateKey.
  destruct (Server_PrivateKey server) as [pk|]; [|reflexivity].
  intros Hsame. simpl. by rewrite Hsame.
Qed.

Section Determinism.
Context `{KeyLib, CidrLib, TextLib}.

Lemma buildNodes_same_secret (env1 env2 : gmap string string)
    (server : Server) :
  same_secret env1 env2 server ->
  buildNodes env1 server = buildNodes env2 server.
Proof.
  intros Hsame. unfold buildNodes.
  by rewrite (getPrivateKey_same_secret _ _ _ Hsame).
Qed.

(** C9.  The serialized output of a build -- the server's file and the
    list of the members' files, or the error or panic that ends the run --
    depends on the environment through nothing but the value of the
    variable the key source names: two runs on the same input, in
    environments that hold the same value for that variable, yield the same
    bytes for the server and for every member. *)
Theorem build_deterministic (env1 env2 : gmap string string)
    (server : Server) :
  same_secret env1 env2 server ->
  serialized env1 server = serialized env2 server.
Proof.
  intros Hsame. unfold serialized.
  by rewrite (buildNodes_same_secret _ _ _ Hsame).
Qed.

End Determinism.

(** ** The example of the specification *)

Section Example.
Context `{KeyLib, TextLib}.

(** C7.  On the specification's example -- range 10.0.0.0/24, three users
    of which only the last is revoked, accepted route 10.1.0.0/16, endpoint
    vpn.example.com, listen port 51820 -- with a key source that resolves
    to a well-formed key, the build returns a server node with address
    10.0.0.1/24 and exactly two peer entries, for the first two users with
    10.0.0.2/32 and 10.0.0.3/32, and exactly two member nodes with those
    two addresses; the revoked third user has neither entry nor node; the
    single peer of the first member's node has endpoint
    vpn.example.com:51820 and allowed range 10.1.0.0/16. *)
Theorem spec_example (env : gmap string string) (source : option PrivateKey)
    (key0 key1 key2 : string) (dns : list string) (pk : string) (k : Key) :
  getPrivateKey env source = Ok pk ->
  ParseKey pk = inr k ->
  exists srv itf m0 itf0 m1 itf1,
    buildNodes env (example_server source key0 key1 key2 dns)
    = Ok (srv, [m0; m1])
    /\ Node_Interface srv = Some itf
    /\ Interface_Address itf = "10.0.0.1/24"
    /\ Node_Peers srv
       = [ {| Peer_PublicKey := key0; Peer_Endpoint := "";
              Peer_AllowedIps := "10.0.0.2/32" |};
           {| Peer_PublicKey := key1; Peer_Endpoint := "";
              Peer_AllowedIps := "10.0.0.3/32" |} ]
    /\ Node_Interface m0 = Some itf0
    /\ Interface_Address itf0 = "10.0.0.2/32"
    /\ Node_Interface m1 = Some itf1
    /\ Interface_Address itf1 = "10.0.0.3/32"
    /\ Node_Peers m0
       = [ {| Peer_PublicKey := PublicKey_String k;
              Peer_Endpoint := "vpn.example.com:51820";
              Peer_AllowedIps := "10.1.0.0/16" |} ].
Proof.
  intros Hpk Hk.
  assert (Hc : cidr_Parse (Server_Cidr (example_server source key0 key1 key2 dns))
               = inr sample_range) by reflexivity.
  rewrite (@buildNodes_run _ ipv4_cidr _ env
             (example_server source key0 key1 key2 dns) pk k sample_range
             Hpk Hk Hc).
  simpl. do 6 eexists.
  split; [reflexivity|]. repeat split.
Qed.

End Example.

(** ** Concrete runs *)

(** C1 on the sample input: the second user keeps 10.0.0.3/32 when the first
    is revoked. *)
Lemma member_address_by_position_witness :
  sample_build sample_env sample_server = Ok sample_out
  /\ member_address sample_server sample_out 1 = Some "10.0.0.3/32"
  /\ member_allowed sample_server sample_out 1 = Some "10.0.0.3/32"
  /\ exists out',
       sample_build sample_env (with_revoked 0 true sample_server) = Ok out'
       /\ member_address (with_revoked 0 true sample_server) out' 1
          = Some "10.0.0.3/32".
Proof.
  destruct (@member_address_by_position sample_keys ipv4_cidr sample_text
              sample_env sample_server sample_out 1%nat bob
              eq_refl eq_refl eq_refl)
    as (c & Hc & Ha & Hal & Hstable).
  injection Hc as <-.
  split; [reflexivity|]. split; [exact Ha|]. split; [exact Hal|].
  destruct (Hstable 0%nat true) as (out' & Hb' & Ha' & _); [discriminate|].
  exists out'. split; [exact Hb'|]. rewrite Ha'. exact Ha.
Defined.

(** C5 on the sample input: one server entry for the second user, two
    member nodes for three users. *)
Lemma peer_symmetry_witness :
  length (filter (entry_of (sample_range : @CIDR ipv4_cidr) bob 1)
            (Node_Peers sample_out.1)) = 1%nat
  /\ length sample_out.2 = 2%nat.
Proof.
  destruct (@peer_symmetry sample_keys ipv4_cidr sample_text
              sample_env sample_server sample_out.1 sample_out.2 eq_refl)
    as (pk & k & c & _ & _ & Hc & Hmembers & _ & _ & Hlen).
  - intros c Hc a b Ha Hb. injection Hc as <-. simpl in Ha, Hb.
    assert (a = 0 \/ a = 1 \/ a = 2) as [-> | [-> | ->]] by lia;
      assert (b = 0 \/ b = 1 \/ b = 2) as [-> | [-> | ->]] by lia;
      intros Hip; try reflexivity; vm_compute in Hip; discriminate.
  - injection Hc as <-.
    destruct (Hmembers 1%nat bob eq_refl eq_refl) as [Hone _].
    split; [exact Hone | exact Hlen].
Defined.

(** C4 on an input without routes and with one member that is not revoked:
    the build panics. *)
Lemma buildNodes_panics_without_routes_witness :
  sample_build sample_env routeless_server = Panic.
Proof.
  apply (@buildNodes_panics_without_routes sample_keys ipv4_cidr sample_text
           sample_env routeless_server sample_secret sample_secret sample_range
           {| User_PublicKey := "alice-key"; User_Revoked := false |});
    try reflexivity.
  left.
Defined.

(** C2 on an input without routes and with no member that is not revoked:
    the server's file has a PostUp line with an empty value. *)
Lemma server_PostUp_without_routes_witness :
  exists srv,
    sample_build sample_env idle_server = Ok (srv, [])
    /\ buildNodeFile_lines srv
       = Ok ["[Interface]"; "Address = 10.0.0.1/24"; "ListenPort = 51820";
             "PrivateKey = AAAAAAAAAAAAAAAAAAAAAAAAAAAAAAAAAAAAAAAAAAA=";
             "PostUp = "; ""].
Proof.
  exists (@server_node ipv4_cidr sample_text idle_server sample_secret
            sample_range).
  split; [reflexivity|].
  destruct (@server_PostUp_without_routes sample_keys ipv4_cidr sample_text
              sample_env idle_server _ [] eq_refl) as [Hpost _].
  destruct (Hpost eq_refl) as (pk & c & Hpk & Hc & Hlines).
  injection Hpk as <-. injection Hc as <-. exact Hlines.
Defined.

(** C10 on the sample input: the lines of the server's file. *)
Lemma server_peers_rendered_without_endpoint_witness :
  buildNodeFile_lines sample_out.1
  = Ok ["[Interface]"; "Address = 10.0.0.1/24"; "ListenPort = 51820";
        "PrivateKey = AAAAAAAAAAAAAAAAAAAAAAAAAAAAAAAAAAAAAAAAAAA=";
        "PostUp = " +:+ @buildPostUp sample_text (Server_Routes sample_server);
        "";
        "[Peer]"; "PublicKey = alice-key"; "Endpoint = ";
        "AllowedIPs = 10.0.0.2/32"; "";
        "[Peer]"; "PublicKey = bob-key"; "Endpoint = ";
        "AllowedIPs = 10.0.0.3/32"; ""].
Proof.
  destruct (@server_peers_rendered_without_endpoint sample_keys ipv4_cidr
              sample_text sample_env sample_server sample_out.1 sample_out.2
              eq_refl) as (_ & _ & itf & Hitf & Hlines).
  injection Hitf as <-. exact Hlines.
Defined.

(** C9 on the sample input, in two environments that differ in a variable
    the key source does not name. *)
Lemma build_deterministic_witness :
  same_secret sample_env busier_env sample_server
  /\ sample_serialized sample_env sample_server
     = sample_serialized busier_env sample_server.
Proof.
  assert (Hsame : same_secret sample_env busier_env sample_server)
    by reflexivity.
  split; [exact Hsame|].
  exact (@build_deterministic sample_keys ipv4_cidr sample_text
           sample_env busier_env sample_server Hsame).
Defined.

(** C7 with the secret read from the sample environment. *)
Lemma spec_example_witness :
  exists srv itf m0 m1,
    sample_build sample_env sample_server = Ok (srv, [m0; m1])
    /\ Node_Interface srv = Some itf
    /\ Interface_Address itf = "10.0.0.1/24".
Proof.
  destruct (@spec_example sample_keys sample_text sample_env env_source
              "alice-key" "bob-key" "carol-key" ["10.0.0.1"]
              sample_secret sample_secret eq_refl eq_refl)
    as (srv & itf & m0 & itf0 & m1 & itf1 & Hb & Hitf & Haddr & _).
  exists srv, itf, m0, m1. split; [exact Hb|]. split; [exact Hitf | exact Haddr].
Defined.


(** * Further properties of the code *)

(** ** What [getPrivateKey] returns *)

(** X1.  A secret that [getPrivateKey] returns is never the empty string, and
    it is the value the environment holds for the variable that an
    environment-variable source names: no other source and no unset variable
    ever yields a secret. *)
Theorem getPrivateKey_Ok_inv (env : gmap string string)
    (source : option PrivateKey) (v : string) :
  getPrivateKey env source = Ok v ->
  v <> ""
  /\ exists name,
       source = Some {| PrivateKey_Store := PrivateKey_EnvVar name |}
       /\ env !! name = Some v.
Proof.
  destruct source as [[store]|]; [|discriminate].
  destruct store as [name|]; [|discriminate].
  unfold getPrivateKey, Getenv, GetEnvVar. simpl.
  destruct (env !! name) as [w|] eqn:Hw; simpl; [|discriminate].
  destruct (String.eqb_spec w "") as [->|Hne]; [discriminate|].
  intros [= ->]. split; [exact Hne|]. by exists name.
Qed.

(** X1 on the sample environment. *)
Lemma getPrivateKey_Ok_inv_witness :
  sample_secret <> ""
  /\ exists name,
       env_source = Some {| PrivateKey_Store := PrivateKey_EnvVar name |}
       /\ sample_env !! name = Some sample_secret.
Proof.
  exact (getPrivateKey_Ok_inv sample_env env_source sample_secret eq_refl).
Defined.

(** ** When [buildNodes] returns, fails or panics *)

Section BuildOutcome.
Context `{KeyLib, CidrLib, TextLib}.

Lemma getPrivateKey_Some_no_panic (env : gmap string string)
    (source : PrivateKey) :
  getPrivateKey env (Some source) <> Panic.
Proof.
  unfold getPrivateKey. simpl.
  destruct (PrivateKey_Store source); [|discriminate].
  destruct (String.eqb _ _); discriminate.
Qed.

(** X2.  [buildNodes] returns an error exactly when key resolution, key
    parsing or range parsing returns one, tried in this order, and the error
    is that call's error unchanged: the routes, the users, the resolvers and
    the endpoint never make the build return an error. *)
Theorem buildNodes_fails_iff (env : gmap string string) (server : Server)
    (msg : string) :
  buildNodes env server = Failed msg
  <-> getPrivateKey env (Server_PrivateKey server) = Failed msg
      \/ (exists pk,
            getPrivateKey env (Server_PrivateKey server) = Ok pk
            /\ ParseKey pk = inl msg)
      \/ (exists pk k,
            getPrivateKey env (Server_PrivateKey server) = Ok pk
            /\ ParseKey pk = inr k
            /\ cidr_Parse (Server_Cidr server) = inl msg).
Proof.
  destruct (getPrivateKey env (Server_PrivateKey server)) as [pk|m|] eqn:Hpk.
  - destruct (ParseKey pk) as [m|k] eqn:Hk.
    { unfold buildNodes. rewrite Hpk. simpl. rewrite Hk. simpl. split.
      - intros [= ->]. right. left. by exists pk.
      - intros [? | [(pk' & [= <-] & Hk') | (pk' & k' & [= <-] & Hk' & _)]];
          congruence. }
    destruct (cidr_Parse (Server_Cidr server)) as [m|c] eqn:Hc.
    { unfold buildNodes. rewrite Hpk. simpl. rewrite Hk. simpl.
      rewrite Hc. simpl. split.
      - intros [= ->]. right. right. by exists pk, k.
      - intros [? | [(pk' & [= <-] & Hk') | (pk' & k' & [= <-] & _ & Hc')]];
          congruence. }
    rewrite (buildNodes_run _ _ _ _ _ Hpk Hk Hc). split.
    + destruct (Server_Routes server); [discriminate|].
      destruct (forallb _ _); discriminate.
    + intros [? | [(pk' & [= <-] & Hk') | (pk' & k' & [= <-] & _ & Hc')]];
        congruence.
  - unfold buildNodes. rewrite Hpk. simpl. split.
    + intros [= ->]. by left.
    + intros [[= ->] | [(pk' & ? & _) | (pk' & k' & ? & _)]];
        [reflexivity | discriminate..].
  - unfold buildNodes. rewrite Hpk. simpl. split; [discriminate|].
    intros [? | [(pk' & ? & _) | (pk' & k' & ? & _)]]; discriminate.
Qed.

(** X4.  [buildNodes] returns nodes exactly when the key resolves and parses,
    the range parses, and either the routes message is present or every user
    is revoked (an empty user list included). *)
Theorem buildNodes_returns_iff (env : gmap string string) (server : Server) :
  returns (buildNodes env server)
  <-> exists pk k c,
        getPrivateKey env (Server_PrivateKey server) = Ok pk
        /\ ParseKey pk = inr k
        /\ cidr_Parse (Server_Cidr server) = inr c
        /\ (is_Some (Server_Routes server)
            \/ forallb User_Revoked (Server_Users server) = true).
Proof.
  split.
  - intros [out Hb].
    destruct (buildNodes_Ok_inv _ _ _ Hb) as (pk & k & c & Hpk & Hk & Hc).
    exists pk, k, c. do 3 (split; [done|]).
    rewrite (buildNodes_run _ _ _ _ _ Hpk Hk Hc) in Hb.
    destruct (Server_Routes server) as [routes|]; [left; by eexists|].
    right. by destruct (forallb _ _).
  - intros (pk & k & c & Hpk & Hk & Hc & Hcase).
    rewrite (buildNodes_run _ _ _ _ _ Hpk Hk Hc).
    destruct (Server_Routes server) as [routes|]; [by eexists|].
    destruct Hcase as [[r Hr] | ->]; [discriminate | by eexists].
Qed.

End BuildOutcome.

(** ** The firewall script and the routes *)

Lemma append_inj_r (a b s : string) : a +:+ s = b +:+ s -> a = b.
Proof.
  assert (Hlen : forall (y : ascii) (t : string), s <> String y t +:+ s).
  { intros y t Heq. apply (f_equal String.length) in Heq.
    rewrite append_cons in Heq. simpl in Heq. rewrite length_append in Heq.
    lia. }
  revert b. induction a as [|x a IH]; intros [|y b] Heq.
  - reflexivity.
  - by apply Hlen in Heq.
  - symmetry in Heq. by apply Hlen in Heq.
  - rewrite !append_cons in Heq. injection Heq as -> Heq.
    f_equal. by apply IH.
Qed.

Lemma cons_eq_inv {A : Type} (x y : A) (l k : list A) :
  x :: l = y :: k -> x = y /\ l = k.
Proof. by intros [= -> ->]. Qed.

Lemma accept_rule_inj (r1 r2 : string) :
  accept_rule r1 = accept_rule r2 -> r1 = r2.
Proof.
  unfold accept_rule. intros Heq.
  apply String.app_inj in Heq. by apply append_inj_r in Heq.
Qed.

(** X9.  Whatever the command separator, [buildPostUp] yields the empty
    string exactly for the nil routes pointer: a routes message, even one
    that accepts nothing, always yields a script. *)
Theorem buildPostUp_empty_iff `{TextLib} (pu : option Routes) :
  buildPostUp pu = "" <-> pu = None.
Proof.
  split; [|by intros ->].
  destruct pu as [pu|]; [|done]. intros Hempty. exfalso.
  unfold buildPostUp, ToOneLine, Join in Hempty.
  rewrite buildPostUp_script_lines in Hempty.
  unfold seven_step_commands in Hempty. cbn [app String.concat] in Hempty.
  discriminate.
Qed.

(** X10.  The commands of the script determine the accepted routes: two
    routes messages whose scripts have the same command list accept the same
    routes in the same order. *)
Theorem buildPostUp_script_inj (pu1 pu2 : Routes) :
  Builder_lines (buildPostUp_script pu1) = Builder_lines (buildPostUp_script pu2)
  -> Routes_Accept pu1 = Routes_Accept pu2.
Proof.
  rewrite !buildPostUp_script_lines. unfold seven_step_commands. intros Heq.
  apply app_inv_head, app_inv_tail in Heq.
  revert Heq. generalize (Routes_Accept pu2).
  induction (Routes_Accept pu1) as [|r rs IH]; intros [|r' rs'] Heq;
    try discriminate; [reflexivity|].
  cbn [map] in Heq. apply cons_eq_inv in Heq as [Hr Hrs].
  f_equal; [by apply accept_rule_inj | by apply IH].
Qed.

(** X10 on two messages with the same single route. *)
Lemma buildPostUp_script_inj_witness :
  Routes_Accept {| Routes_Accept := ["10.1.0.0/16"] |}
  = Routes_Accept {| Routes_Accept := ["10.1.0.0/16"] |}.
Proof.
  exact (buildPostUp_script_inj {| Routes_Accept := ["10.1.0.0/16"] |}
           {| Routes_Accept := ["10.1.0.0/16"] |} eq_refl).
Defined.

(** ** What [buildNodes] puts into the nodes *)

Lemma active_snd (idx : Z) (users : list User) :
  (active idx users).*2 = filter (fun u => User_Revoked u = false) users.
Proof.
  revert idx. induction users as [|u users IH]; intros idx; [reflexivity|].
  rewrite active_cons, fmap_app, IH, filter_cons.
  destruct (User_Revoked u); reflexivity.
Qed.

Lemma active_app (idx : Z) (us vs : list User) :
  active idx (us ++ vs)
  = active idx us ++ active (idx + Z.of_nat (length us)) vs.
Proof.
  revert idx. induction us as [|u us IH]; intros idx.
  - simpl. by rewrite Z.add_0_r.
  - change ((u :: us) ++ vs) with (u :: (us ++ vs)).
    rewrite !active_cons, IH, <- app_assoc. do 3 f_equal.
    change (length (u :: us)) with (S (length us)). lia.
Qed.

Section Nodes.
Context `{KeyLib, CidrLib, TextLib}.

(** X5.  The public keys of the server's peer entries are the public keys of
    the users that are not revoked, in the order of the user list: the build
    neither reorders nor drops nor repeats a member. *)
Theorem server_peer_keys (env : gmap string string) (server : Server)
    (srv : Node) (nodes : list Node) :
  buildNodes env server = Ok (srv, nodes) ->
  Peer_PublicKey <$> Node_Peers srv
  = User_PublicKey <$> filter (fun u => User_Revoked u = false)
                         (Server_Users server).
Proof.
  intros Hb.
  destruct (buildNodes_Ok_shape _ _ _ Hb)
    as (pk & k & c & _ & _ & _ & Hsrv & _).
  simpl in Hsrv. subst srv. simpl.
  rewrite <- (active_snd 0), <- !list_fmap_compose. reflexivity.
Qed.

(** X6.  Every member node that the build returns has an interface without
    listen port, without private key and without hooks; its DNS field is
    absent when the resolvers joined by commas give the empty string and is
    that string otherwise; and its only peer is the server, with the public
    key derived from the resolved secret, the endpoint [endpoint:listenPort]
    and the accepted routes joined by a comma and a space as allowed range. *)
Theorem member_nodes_shape (env : gmap string string) (server : Server)
    (srv : Node) (nodes : list Node) :
  buildNodes env server = Ok (srv, nodes) ->
  Forall (fun n =>
    exists itf,
      Node_Interface n = Some itf
      /\ Interface_ListenPort itf = None
      /\ Interface_PrivateKey itf = None
      /\ Interface_PreUp itf = None
      /\ Interface_PostUp itf = None
      /\ Interface_PreDown itf = None
      /\ Interface_PostDown itf = None
      /\ Interface_Dns itf
         = (if decide (Join (Server_Dns server) "," = "") then None
            else Some (Join (Server_Dns server) ","))
      /\ exists pk k routes,
           getPrivateKey env (Server_PrivateKey server) = Ok pk
           /\ ParseKey pk = inr k
           /\ Server_Routes server = Some routes
           /\ Node_Peers n
              = [ {| Peer_PublicKey := PublicKey_String k;
                     Peer_Endpoint :=
                       Server_Endpoint server +:+ ":" +:+
                       fmt_d (Server_ListenPort server);
                     Peer_AllowedIps := Join (Routes_Accept routes) ", " |} ])
    nodes.
Proof.
  intros Hb.
  destruct (buildNodes_Ok_shape _ _ _ Hb)
    as (pk & k & c & Hpk & Hk & _ & _ & Hnodes).
  simpl in Hnodes.
  destruct (Server_Routes server) as [routes|] eqn:Hr;
    [|destruct Hnodes as [-> _]; constructor].
  subst nodes. apply Forall_fmap, Forall_forall. intros p _.
  eexists. split; [reflexivity|]. simpl.
  do 7 (split; [reflexivity|]). by exists pk, k, routes.
Qed.

(** X8.  The server node that the build returns carries the range's first
    address with the mask, the configured listen port, the resolved secret as
    private key and always a PostUp value, which is the empty string exactly
    when the routes message is absent; it never carries DNS, PreUp, PreDown
    or PostDown. *)
Theorem server_interface_shape (env : gmap string string) (server : Server)
    (srv : Node) (nodes : list Node) :
  buildNodes env server = Ok (srv, nodes) ->
  exists pk c itf postup,
    getPrivateKey env (Server_PrivateKey server) = Ok pk
    /\ cidr_Parse (Server_Cidr server) = inr c
    /\ Node_Interface srv = Some itf
    /\ Interface_Address itf
       = IP_String (cidr_First c) +:+ "/" +:+ cidr_Mask c
    /\ Interface_ListenPort itf = Some (Server_ListenPort server)
    /\ Interface_PrivateKey itf = Some pk
    /\ Interface_PostUp itf = Some postup
    /\ (postup = "" <-> Server_Routes server = None)
    /\ Interface_Dns itf = None
    /\ Interface_PreUp itf = None
    /\ Interface_PreDown itf = None
    /\ Interface_PostDown itf = None.
Proof.
  intros Hb.
  destruct (buildNodes_Ok_shape _ _ _ Hb)
    as (pk & k & c & Hpk & _ & Hc & Hsrv & _).
  simpl in Hsrv. subst srv.
  exists pk, c. eexists _, _. do 2 (split; [done|]).
  split; [reflexivity|]. simpl. do 4 (split; [reflexivity|]).
  split; [apply buildPostUp_empty_iff | done].
Qed.

(** X7.  Appending users to the list extends the result and changes nothing
    in it: when the build returns on both inputs, the server's interface is
    the same, the server's peer entries and the member nodes of the shorter
    input are a prefix of those of the longer one, and what follows them is
    one entry and one node per appended user that is not revoked. *)
Theorem buildNodes_append_users (env : gmap string string) (server : Server)
    (more : list User) (srv srv' : Node) (nodes nodes' : list Node) :
  buildNodes env server = Ok (srv, nodes) ->
  buildNodes env (with_users server (Server_Users server ++ more))
  = Ok (srv', nodes') ->
  Node_Interface srv' = Node_Interface srv
  /\ exists ps ns,
       Node_Peers srv' = Node_Peers srv ++ ps
       /\ nodes' = nodes ++ ns
       /\ length ps
          = length (filter (fun u => User_Revoked u = false) more)
       /\ length ns
          = length (filter (fun u => User_Revoked u = false) more).
Proof.
  intros Hb Hb'.
  destruct (buildNodes_Ok_shape _ _ _ Hb)
    as (pk & k & c & Hpk & Hk & Hc & Hsrv & Hnodes).
  destruct (buildNodes_Ok_shape _ _ _ Hb')
    as (pk' & k' & c' & Hpk' & Hk' & Hc' & Hsrv' & Hnodes').
  simpl in Hpk', Hc', Hsrv, Hnodes, Hsrv', Hnodes'.
  assert (pk' = pk) as -> by congruence.
  assert (k' = k) as -> by congruence.
  assert (c' = c) as -> by congruence.
  subst srv srv'. split; [reflexivity|].
  exists (peer_of_member c
            <$> active (0 + Z.of_nat (length (Server_Users server))) more).
  destruct (Server_Routes server) as [routes|].
  - exists (node_of_member server (PublicKey_String k) c routes
              <$> active (0 + Z.of_nat (length (Server_Users server))) more).
    subst nodes nodes'. unfold server_node.
    cbn [Node_Peers Server_Users with_users].
    rewrite !active_app, !fmap_app, !length_fmap, active_length.
    by repeat split.
  - exists []. destruct Hnodes as [-> Hnone], Hnodes' as [-> Hnone'].
    unfold server_node. cbn [Node_Peers Server_Users with_users].
    rewrite active_app in Hnone'. apply app_eq_nil in Hnone' as [_ Hmore].
    rewrite active_app, Hnone, fmap_app, Hmore.
    rewrite <- (active_length (0 + Z.of_nat (length (Server_Users server)))),
      Hmore.
    by repeat split.
Qed.

End Nodes.

(** ** What [buildNodes] does not look at *)

Section Independence.
Context `{KeyLib, CidrLib, TextLib}.

Lemma range_Users_with_users (server : Server) (users : list User)
    (pub : string) (c : CIDR) (idx : Z) (l : list User)
    (st : list Peer * list Node) :
  range_Users (with_users server users) pub c idx l st
  = range_Users server pub c idx l st.
Proof.
  revert idx st. induction l as [|u l IH]; intros idx st; [reflexivity|].
  cbn [range_Users].
  change (user_step (with_users server users) pub c idx u st)
    with (user_step server pub c idx u st).
  destruct (user_step server pub c idx u st); simpl; [apply IH | done..].
Qed.

Lemma range_Users_same_active (server : Server) (pub : string) (c : CIDR)
    (idx : Z) (us vs : list User) (st : list Peer * list Node) :
  same_active us vs ->
  range_Users server pub c idx us st = range_Users server pub c idx vs st.
Proof.
  intros Hsame. revert idx st.
  induction Hsame as [|u v us vs [Hflag Hkey] _ IH]; intros idx st;
    [reflexivity|].
  cbn [range_Users].
  assert (Hstep : user_step server pub c idx u st
                  = user_step server pub c idx v st).
  { unfold user_step. destruct st as [ps ns]. rewrite <- Hflag.
    destruct (User_Revoked u); [reflexivity|]. simpl. by rewrite Hkey. }
  rewrite Hstep.
  destruct (user_step server pub c idx v st); simpl; [apply IH | done..].
Qed.

(** X18.  The build never looks at the public key of a revoked user: two
    user lists that agree on every revoked flag and on the key of every user
    that is not revoked give the same result, be it nodes, an error or a
    panic. *)
Theorem buildNodes_ignores_revoked_keys (env : gmap string string)
    (server : Server) (users : list User) :
  same_active (Server_Users server) users ->
  buildNodes env (with_users server users) = buildNodes env server.
Proof.
  intros Hsame. unfold buildNodes.
  cbn [with_users Server_PrivateKey Server_Cidr Server_Routes
       Server_ListenPort Server_Users].
  destruct (getPrivateKey env (Server_PrivateKey server)) as [pk| |];
    simpl; [|done..].
  destruct (ParseKey pk) as [|k]; simpl; [done|].
  destruct (cidr_Parse (Server_Cidr server)) as [|c]; simpl; [done|].
  by rewrite range_Users_with_users, <- (range_Users_same_active _ _ _ _ _ _ _ Hsame).
Qed.

(** X19.  The endpoint and the resolvers reach the member nodes only: an
    input that differs in nothing else returns the same server node, and as
    many member nodes with the same addresses. *)
Theorem server_node_ignores_endpoint_dns (env : gmap string string)
    (server : Server) (endpoint : string) (dns : list string)
    (srv : Node) (nodes : list Node) :
  buildNodes env server = Ok (srv, nodes) ->
  exists nodes',
    buildNodes env (with_endpoint_dns server endpoint dns) = Ok (srv, nodes')
    /\ ((fun n => Interface_Address <$> Node_Interface n) <$> nodes'
        = (fun n => Interface_Address <$> Node_Interface n) <$> nodes).
Proof.
  intros Hb.
  destruct (buildNodes_Ok_inv _ _ _ Hb) as (pk & k & c & Hpk & Hk & Hc).
  rewrite (buildNodes_run _ _ _ _ _ Hpk Hk Hc) in Hb.
  rewrite (buildNodes_run env (with_endpoint_dns server endpoint dns)
             pk k c Hpk Hk Hc).
  unfold server_node in *.
  cbn [with_endpoint_dns Server_Routes Server_Users Server_ListenPort] in *.
  destruct (Server_Routes server) as [routes|].
  - injection Hb as <- <-. eexists. split; [reflexivity|].
    rewrite <- !list_fmap_compose. reflexivity.
  - destruct (forallb User_Revoked (Server_Users server)); [|discriminate].
    injection Hb as <- <-. by eexists.
Qed.

End Independence.

(** ** What [buildNodeFile] writes *)


Lemma directive_length (name : string) (v : option string) :
  length (directive name v) = length (named name v).
Proof. by destruct v. Qed.

Lemma peer_sections_length (peers : list Peer) :
  length (flat_map peer_section peers) = (5 * length peers)%nat.
Proof.
  induction peers as [|u peers IH]; [reflexivity|].
  cbn [flat_map]. rewrite length_app, IH. simpl. lia.
Qed.





(** X12.  The file of a node has three lines for the interface header, the
    address and the closing blank line, one line per optional field that is
    present, and five lines per peer. *)
Theorem buildNodeFile_line_count (itf : Interface) (peers : list Peer) :
  exists lines,
    buildNodeFile_lines {| Node_Interface := Some itf; Node_Peers := peers |}
    = Ok lines
    /\ length lines
       = (3 + length (present itf) + 5 * length peers)%nat.
Proof.
  eexists. split; [apply buildNodeFile_lines_sections|].
  rewrite length_app, peer_sections_length.
  unfold interface_section, present.
  rewrite !length_app, !directive_length. 
  destruct (Interface_ListenPort itf); simpl; lia.
Qed.

(** ** Rendering the nodes of a build *)

Section Rendering.
Context `{KeyLib, CidrLib, TextLib}.

Lemma buildNodeFile_of_lines (n : Node) (lines : list string) :
  buildNodeFile_lines n = Ok lines -> buildNodeFile n = Ok (node_String lines).
Proof.
  unfold buildNodeFile_lines, buildNodeFile, Builder_String.
  destruct (buildNodeFile_builder n) as [c| |]; simpl; [|done..].
  by intros [= <-].
Qed.

Lemma render_members (nodes : list Node) :
  Forall (fun n => is_Some (Node_Interface n)) nodes ->
  exists uls,
    Forall2 (fun n ls => buildNodeFile_lines n = Ok ls) nodes uls
    /\ foldr (fun n acc => t ← buildNodeFile n; ts ← acc; Ok (t :: ts))
             (Ok []) nodes
       = Ok (node_String <$> uls).
Proof.
  induction 1 as [|n nodes [itf Hitf] _ (uls & Hall & Hfold)].
  - exists []. by split.
  - destruct n as [i peers]. simpl in Hitf. subst i.
    eexists (_ :: uls). split.
    + constructor; [apply buildNodeFile_lines_sections | exact Hall].
    + cbn [foldr]. rewrite Hfold.
      by rewrite (buildNodeFile_of_lines _ _ (buildNodeFile_lines_sections itf peers)).
Qed.

Lemma member_nodes_have_interface (env : gmap string string)
    (server : Server) (srv : Node) (nodes : list Node) :
  buildNodes env server = Ok (srv, nodes) ->
  Forall (fun n => is_Some (Node_Interface n)) nodes.
Proof.
  intros Hb. eapply Forall_impl; [exact (member_nodes_shape _ _ _ _ Hb)|].
  intros n (itf & Hitf & _). by exists itf.
Qed.

(** X13.  The nodes of a build that returns always render: [buildNodeFile]
    panics on none of them, so that the serialization [main] performs yields
    the server's file and exactly one file per member node, each the text of
    the node's lines. *)
Theorem serialized_returns (env : gmap string string) (server : Server)
    (srv : Node) (nodes : list Node) :
  buildNodes env server = Ok (srv, nodes) ->
  exists sl uls,
    buildNodeFile_lines srv = Ok sl
    /\ Forall2 (fun n ls => buildNodeFile_lines n = Ok ls) nodes uls
    /\ serialized env server = Ok (node_String sl, node_String <$> uls).
Proof.
  intros Hb.
  destruct (render_members nodes (member_nodes_have_interface _ _ _ _ Hb))
    as (uls & Hall & Hfold).
  destruct (buildNodes_Ok_shape _ _ _ Hb)
    as (pk & k & c & _ & _ & _ & Hsrv & _).
  simpl in Hsrv.
  assert (Hsl : buildNodeFile_lines srv
                = Ok (interface_section
                        {| Interface_Address :=
                             IP_String (cidr_First c) +:+ "/" +:+ cidr_Mask c;
                           Interface_ListenPort := Some (Server_ListenPort server);
                           Interface_PrivateKey := Some pk;
                           Interface_Dns := None;
                           Interface_PreUp := None;
                           Interface_PostUp :=
                             Some (buildPostUp (Server_Routes server));
                           Interface_PreDown := None;
                           Interface_PostDown := None |}
                      ++ flat_map peer_section
                           (peer_of_member c <$> active 0 (Server_Users server)))).
  { subst srv. apply buildNodeFile_lines_sections. }
  eexists _, uls. split; [exact Hsl|]. split; [exact Hall|].
  unfold serialized. rewrite Hb. simpl.
  rewrite (buildNodeFile_of_lines _ _ Hsl). simpl.
  by rewrite Hfold.
Qed.

(** X14.  The file of a member that is not revoked, at position [i] of the
    user list, is exactly: the interface header, the member's /32 address, a
    DNS line with the resolvers joined by commas unless that text is empty, a
    blank line, and one peer section with the server's derived public key,
    the endpoint [endpoint:listenPort] and the accepted routes joined by a
    comma and a space. *)
Theorem member_file_lines (env : gmap string string) (server : Server)
    (srv : Node) (nodes : list Node) (i : nat) (u : User) :
  buildNodes env server = Ok (srv, nodes) ->
  Server_Users server !! i = Some u ->
  User_Revoked u = false ->
  exists n pk k c routes,
    nodes !! rank (Server_Users server) i = Some n
    /\ getPrivateKey env (Server_PrivateKey server) = Ok pk
    /\ ParseKey pk = inr k
    /\ cidr_Parse (Server_Cidr server) = inr c
    /\ Server_Routes server = Some routes
    /\ buildNodeFile_lines n
       = Ok (["[Interface]";
              "Address = " +:+ IP_String (cidr_GetNth c (Z.of_nat i + 1))
                 +:+ "/32"]
             ++ (if decide (Join (Server_Dns server) "," = "") then []
                 else ["DNS = " +:+ Join (Server_Dns server) ","])
             ++ ["";
                 "[Peer]";
                 "PublicKey = " +:+ PublicKey_String k;
                 "Endpoint = " +:+ Server_Endpoint server +:+ ":" +:+
                    fmt_d (Server_ListenPort server);
                 "AllowedIPs = " +:+ Join (Routes_Accept routes) ", ";
                 ""]).
Proof.
  intros Hb Hi Hu.
  destruct (buildNodes_Ok_shape _ _ _ Hb)
    as (pk & k & c & Hpk & Hk & Hc & _ & Hnodes).
  simpl in Hnodes.
  pose proof (active_lookup 0 _ _ _ Hi Hu) as Hl.
  destruct (Server_Routes server) as [routes|];
    [|destruct Hnodes as [_ Hnone]; rewrite Hnone in Hl; discriminate].
  subst nodes. eexists _, pk, k, c, routes.
  split; [by rewrite list_lookup_fmap, Hl|].
  do 4 (split; [done|]).
  unfold node_of_member. rewrite buildNodeFile_lines_sections.
  cbn [fst snd]. rewrite Z.add_0_l.
  destruct (decide (Join (Server_Dns server) "," = "")); reflexivity.
Qed.

End Rendering.

(** ** [main] *)

Section MainFacts.
Context `{KeyLib, CidrLib, TextLib}.

Lemma written_prints (ts : list string) :
  written (flat_map (fun t => [Println t; Println ""]) ts) = [].
Proof. induction ts as [|t ts IH]; [reflexivity | exact IH]. Qed.

Lemma printed_prints_length (ts : list string) :
  length (printed (flat_map (fun t => [Println t; Println ""]) ts))
  = (2 * length ts)%nat.
Proof.
  induction ts as [|t ts IH]; [reflexivity|].
  change (S (S (length (printed
            (flat_map (fun t => [Println t; Println ""]) ts))))
          = (2 * S (length ts))%nat).
  rewrite IH. lia.
Qed.

Lemma print_users_lines (nodes : list Node) (uls : list (list string)) :
  Forall2 (fun n ls => buildNodeFile_lines n = Ok ls) nodes uls ->
  print_users nodes
  = (flat_map (fun t => [Println t; Println ""]) (node_String <$> uls),
     Returned).
Proof.
  induction 1 as [|n ls nodes uls Hn _ IH]; [reflexivity|].
  cbn [print_users]. rewrite (buildNodeFile_of_lines _ _ Hn), IH. reflexivity.
Qed.

(** [main] once the configuration is read and the nodes are built. *)
Lemma main_built (env : gmap string string) (server : Server)
    (write_err : string -> string -> option string)
    (srv : Node) (nodes : list Node) :
  buildNodes env server = Ok (srv, nodes) ->
  exists text texts,
    serialized env server = Ok (text, texts)
    /\ length texts = length nodes
    /\ main (inr server) env write_err
       = match write_err wg0_conf text with
         | Some err =>
             ([WriteFile wg0_conf text;
               LogError "failed to write server config" err], Exit 1)
         | None => (full_run text texts, Returned)
         end.
Proof.
  intros Hb.
  destruct (serialized_returns _ _ _ _ Hb) as (sl & uls & Hsl & Hall & Hser).
  exists (node_String sl), (node_String <$> uls).
  split; [exact Hser|]. split.
  { rewrite length_fmap. symmetry. by eapply Forall2_length. }
  unfold main. rewrite Hb, (buildNodeFile_of_lines _ _ Hsl).
  destruct (write_err wg0_conf (node_String sl)); [reflexivity|].
  by rewrite (print_users_lines _ _ Hall).
Qed.

(** X16.  When the configuration is read, the build returns and the file
    can be written, [main] writes the server's file to
    /etc/wireguard/wg0.conf, then prints "Server", the very text it wrote,
    three empty lines, "Users", and for every member node its file followed
    by an empty line, and returns; the texts are those of the
    serialization. *)
Theorem main_success (env : gmap string string) (server : Server)
    (write_err : string -> string -> option string)
    (srv : Node) (nodes : list Node) :
  buildNodes env server = Ok (srv, nodes) ->
  (forall data, write_err wg0_conf data = None) ->
  exists text texts,
    serialized env server = Ok (text, texts)
    /\ length texts = length nodes
    /\ main (inr server) env write_err = (full_run text texts, Returned)
    /\ written (full_run text texts) = [(wg0_conf, text)]
    /\ length (printed (full_run text texts)) = (6 + 2 * length nodes)%nat.
Proof.
  intros Hb Hw.
  destruct (main_built env server write_err _ _ Hb)
    as (text & texts & Hser & Hlen & Hmain).
  exists text, texts. rewrite Hw in Hmain.
  do 3 (split; [done|]).
  split.
  - unfold full_run, written. cbn [omap list_omap]. fold written.
    by rewrite written_prints.
  - unfold full_run, printed. cbn [omap list_omap length]. fold printed.
    rewrite printed_prints_length, Hlen. lia.
Qed.

(** X15.  [main] ends with exit status 1 exactly when reading the
    configuration failed, or the build returned an error, or writing the
    server's file failed; it then has logged exactly one error and printed
    nothing, and it has written nothing unless the write itself was what
    failed.  No other exit status is ever used. *)
Theorem main_exit_iff (config : string + Server) (env : gmap string string)
    (write_err : string -> string -> option string) :
  let run := main config env write_err in
  (run.2 = Exit 1
   <-> (exists err, config = inl err)
       \/ (exists server msg,
             config = inr server /\ buildNodes env server = Failed msg)
       \/ (exists server text texts err,
             config = inr server
             /\ serialized env server = Ok (text, texts)
             /\ write_err wg0_conf text = Some err))
  /\ (run.2 = Exit 1 ->
      printed run.1 = []
      /\ length (logged run.1) = 1%nat
      /\ (written run.1 = []
          \/ exists server text texts err,
               config = inr server
               /\ serialized env server = Ok (text, texts)
               /\ write_err wg0_conf text = Some err
               /\ written run.1 = [(wg0_conf, text)]))
  /\ (forall code, run.2 = Exit code -> code = 1).
Proof.
  cbn zeta. destruct config as [err|server].
  { simpl. split; [|split].
    - split; [intros _; left; by exists err | done].
    - intros _. repeat split. by left.
    - by intros code [= <-]. }
  destruct (buildNodes env server) as [[srv nodes]|msg|] eqn:Hb.
  - destruct (main_built env server write_err _ _ Hb)
      as (text & texts & Hser & _ & ->).
    destruct (write_err wg0_conf text) as [err|] eqn:Hw; simpl.
    + split; [|split].
      * split; [|done]. intros _. right. right. by exists server, text, texts, err.
      * intros _. repeat split. right. by exists server, text, texts, err.
      * by intros code [= <-].
    + split; [|split]; [|done..]. split; [done|].
      intros [[err' ?] | [(s1 & m1 & [= <-] & ?) | (s2 & t2 & ts2 & e2 & [= <-] & Hser' & Hw')]];
        [discriminate|congruence|].
      rewrite Hser in Hser'. injection Hser' as <- <-. congruence.
  - unfold main. rewrite Hb. simpl. split; [|split].
    + split; [|done]. intros _. right. left. by exists server, msg.
    + intros _. repeat split. by left.
    + by intros code [= <-].
  - unfold main. rewrite Hb. simpl. split; [|split]; [|done..].
    split; [done|].
    intros [[err' ?] | [(s1 & m1 & [= <-] & ?) | (s2 & t2 & ts2 & e2 & [= <-] & Hser' & _)]];
      [discriminate|congruence|].
    unfold serialized in Hser'. by rewrite Hb in Hser'.
Qed.

(** X17.  [main] ends in a panic exactly when the configuration is read and
    the build panics; rendering, writing and printing never make the process
    crash, and a crashing run has done nothing before. *)
Theorem main_crash_iff (config : string + Server) (env : gmap string string)
    (write_err : string -> string -> option string) :
  let run := main config env write_err in
  (run.2 = Crashed
   <-> exists server, config = inr server /\ buildNodes env server = Panic)
  /\ (run.2 = Crashed -> run.1 = []).
Proof.
  cbn zeta. destruct config as [err|server].
  { simpl. split; [|done]. split; [done|]. by intros (sv & ? & _). }
  destruct (buildNodes env server) as [[srv nodes]|msg|] eqn:Hb.
  - destruct (main_built env server write_err _ _ Hb)
      as (text & texts & _ & _ & ->).
    destruct (write_err wg0_conf text) as [err|]; simpl;
      (split; [|done]; split; [done|]; intros (sv & [= <-] & ?); congruence).
  - unfold main. rewrite Hb. simpl.
    split; [|done]. split; [done|]. intros (sv & [= <-] & ?). congruence.
  - unfold main. rewrite Hb. simpl.
    split; [|done]. split; [|done]. intros _. by exists server.
Qed.

(** X20.  In every run [main] writes at most one file, and that file is
    /etc/wireguard/wg0.conf; and it prints only after that write succeeded:
    if anything is printed, the output begins with "Server" followed by the
    very text that was written. *)
Theorem main_writes_once (config : string + Server)
    (env : gmap string string)
    (write_err : string -> string -> option string) :
  let run := main config env write_err in
  (written run.1 = [] \/ exists data, written run.1 = [(wg0_conf, data)])
  /\ (printed run.1 <> [] ->
      exists data more,
        written run.1 = [(wg0_conf, data)]
        /\ write_err wg0_conf data = None
        /\ printed run.1 = "Server" :: data :: more).
Proof.
  cbn zeta. destruct config as [err|server].
  { simpl. split; [by left | done]. }
  destruct (buildNodes env server) as [[srv nodes]|msg|] eqn:Hb.
  - destruct (main_built env server write_err _ _ Hb)
      as (text & texts & _ & _ & ->).
    destruct (write_err wg0_conf text) as [err|] eqn:Hw.
    + simpl. split; [right; by exists text | done].
    + cbn [fst]. unfold full_run.
      assert (Hwr : written (WriteFile wg0_conf text
                             :: Println "Server" :: Println text
                             :: Println "" :: Println "" :: Println ""
                             :: Println "Users"
                             :: flat_map (fun t => [Println t; Println ""]) texts)
                    = [(wg0_conf, text)]).
      { unfold written. cbn [omap list_omap]. fold written.
        by rewrite written_prints. }
      split; [right; by exists text|]. intros _.
      eexists text, _. split; [exact Hwr|]. split; [exact Hw|].
      unfold printed. cbn [omap list_omap]. reflexivity.
  - unfold main. rewrite Hb. simpl. split; [by left | done].
  - unfold main. rewrite Hb. simpl. split; [by left | done].
Qed.

End MainFacts.

(** ** Further concrete runs *)

(** X5 on the sample input. *)
Lemma server_peer_keys_witness :
  Peer_PublicKey <$> Node_Peers sample_out.1 = ["alice-key"; "bob-key"].
Proof.
  exact (@server_peer_keys sample_keys ipv4_cidr sample_text sample_env
           sample_server sample_out.1 sample_out.2 eq_refl).
Defined.

(** X6 on the sample input: no member node carries a private key. *)
Lemma member_nodes_shape_witness :
  Forall (fun n => exists itf,
            Node_Interface n = Some itf /\ Interface_PrivateKey itf = None)
         sample_out.2.
Proof.
  eapply Forall_impl;
    [exact (@member_nodes_shape sample_keys ipv4_cidr sample_text sample_env
              sample_server sample_out.1 sample_out.2 eq_refl)|].
  intros n (itf & Hitf & _ & Hkey & _). by exists itf.
Defined.

(** X8 on the sample input. *)
Lemma server_interface_shape_witness :
  exists itf postup,
    Node_Interface sample_out.1 = Some itf
    /\ Interface_PostUp itf = Some postup
    /\ postup <> "".
Proof.
  destruct (@server_interface_shape sample_keys ipv4_cidr sample_text
              sample_env sample_server sample_out.1 sample_out.2 eq_refl)
    as (pk & c & itf & postup & _ & _ & Hitf & _ & _ & _ & Hpost & Hempty & _).
  exists itf, postup. do 2 (split; [done|]).
  intros Hp. apply Hempty in Hp. discriminate.
Defined.

(** X7 on the sample input with one user appended. *)
Lemma buildNodes_append_users_witness :
  exists ps ns,
    Node_Peers grown_out.1 = Node_Peers sample_out.1 ++ ps
    /\ grown_out.2 = sample_out.2 ++ ns
    /\ length ps = 1%nat
    /\ length ns = 1%nat.
Proof.
  destruct (@buildNodes_append_users sample_keys ipv4_cidr sample_text
              sample_env sample_server [dave]
              sample_out.1 grown_out.1 sample_out.2 grown_out.2
              eq_refl eq_refl)
    as (_ & ps & ns & Hps & Hns & Hlp & Hln).
  by exists ps, ns.
Defined.

(** X18 on the sample input, with another key for the revoked user. *)
Lemma buildNodes_ignores_revoked_keys_witness :
  sample_build sample_env (with_users sample_server rekeyed_users)
  = sample_build sample_env sample_server.
Proof.
  apply (@buildNodes_ignores_revoked_keys sample_keys ipv4_cidr sample_text).
  repeat constructor; discriminate.
Defined.

(** X19 on the sample input, with another endpoint and no resolver. *)
Lemma server_node_ignores_endpoint_dns_witness :
  exists nodes',
    sample_build sample_env
      (with_endpoint_dns sample_server "vpn2.example.com" [])
    = Ok (sample_out.1, nodes').
Proof.
  destruct (@server_node_ignores_endpoint_dns sample_keys ipv4_cidr
              sample_text sample_env sample_server "vpn2.example.com" []
              sample_out.1 sample_out.2 eq_refl)
    as (nodes' & Hb & _).
  by exists nodes'.
Defined.

(** X13 on the sample input: two member files. *)
Lemma serialized_returns_witness :
  exists text texts,
    sample_serialized sample_env sample_server = Ok (text, texts)
    /\ length texts = 2%nat.
Proof.
  destruct (@serialized_returns sample_keys ipv4_cidr sample_text sample_env
              sample_server sample_out.1 sample_out.2 eq_refl)
    as (sl & uls & _ & Hall & Hser).
  eexists _, _. split; [exact Hser|].
  rewrite length_fmap, <- (Forall2_length _ _ _ Hall). reflexivity.
Defined.

(** X14 on the sample input: the file of the second user. *)
Lemma member_file_lines_witness :
  exists n,
    sample_out.2 !! 1%nat = Some n
    /\ buildNodeFile_lines n
       = Ok ["[Interface]"; "Address = 10.0.0.3/32"; "DNS = 10.0.0.1"; "";
             "[Peer]";
             "PublicKey = pub:AAAAAAAAAAAAAAAAAAAAAAAAAAAAAAAAAAAAAAAAAAA=";
             "Endpoint = vpn.example.com:51820";
             "AllowedIPs = 10.1.0.0/16"; ""].
Proof.
  destruct (@member_file_lines sample_keys ipv4_cidr sample_text sample_env
              sample_server sample_out.1 sample_out.2 1%nat bob
              eq_refl eq_refl eq_refl)
    as (n & pk & k & c & routes & Hn & Hpk & Hk & Hc & Hr & Hlines).
  exists n. split; [exact Hn|].
  injection Hpk as <-. injection Hk as <-. injection Hc as <-.
  injection Hr as <-.
  exact Hlines.
Defined.

(** X16 on the sample input, with a file system that accepts the write. *)
Lemma main_success_witness :
  exists text texts,
    @main sample_keys ipv4_cidr sample_text (inr sample_server) sample_env
      write_ok
    = (full_run text texts, Returned)
    /\ length texts = 2%nat.
Proof.
  destruct (@main_success sample_keys ipv4_cidr sample_text sample_env
              sample_server write_ok sample_out.1 sample_out.2 eq_refl
              (fun _ => eq_refl))
    as (text & texts & _ & Hlen & Hmain & _).
  by exists text, texts.
Defined.
